(** * img-processor: resize, watermark and size-constrained encoding

    A shallow embedding of [img-processor.py]: the single-image pipeline
    ([process_single_image], [apply_logo], [resize_and_compress_to_buffer]),
    the archive extractor ([extract_files_from_archive]) and the two
    Streamlit handlers (single file, batch).

    Python values are modelled as follows.
    - [int] is [Z]; [float] is a binary64 primitive float.
    - [str] is [string].  Case mapping is the ASCII one: the suffixes the
      program tests ([.zip], [.7z], [.png], [.jpg], [.jpeg], [.webp]) are
      ASCII, and no character outside ASCII lowers to one of their letters.
    - [io.BytesIO] objects are read from position 0 wherever the program
      reads them (fresh buffers, or an explicit [seek(0)]), so a stream is
      the [list byte] it holds.
    - an exception is the [Raise] constructor of [result].
    - Pillow, zipfile and py7zr are libraries outside the repository: their
      pixel arithmetic and container parsing are fields of the [Pillow] and
      [Containers] interfaces; what the claims depend on (sizes, modes,
      which calls raise) is written out.
    - [x ** y] on floats is the C library's [pow], whose last place differs
      between platforms: it is the field of the [CLibrary] interface. *)

From Stdlib Require Import ZArith List String Ascii Bool Lia.
From Stdlib Require Import Floats.PrimFloat Floats.SpecFloat Floats.FloatOps.
From Equations Require Import Equations.
Import ListNotations.

Open Scope Z_scope.

Definition bytes := list Byte.byte.

(* ------------------------------------------------------------------ *)
(** ** Python exceptions *)

Inductive exn : Type :=
| UnidentifiedImageError
| ValueError
| ZeroDivisionError
| OverflowError
| KeyError
| OSError
| BadZipFile
| Bad7zFile.

Inductive result (A : Type) : Type :=
| Ok (a : A)
| Raise (e : exn).
Arguments Ok {A} a.
Arguments Raise {A} e.

Definition bind {A B : Type} (r : result A) (k : A -> result B) : result B :=
  match r with
  | Ok a => k a
  | Raise e => Raise e
  end.

Notation "x <- r ;; k" := (bind r (fun x => k))
  (at level 61, r at next level, right associativity).
Notation "' p <- r ;; k" := (bind r (fun p => k))
  (at level 61, p pattern, r at next level, right associativity).

Definition is_ok {A : Type} (r : result A) : bool :=
  match r with Ok _ => true | Raise _ => false end.

(* ------------------------------------------------------------------ *)
(** ** The [str] methods the program calls *)

Module PyStr.

Definition lower_ascii (c : ascii) : ascii :=
  let n := N_of_ascii c in
  if ((65 <=? n) && (n <=? 90))%N then ascii_of_N (n + 32) else c.

Definition upper_ascii (c : ascii) : ascii :=
  let n := N_of_ascii c in
  if ((97 <=? n) && (n <=? 122))%N then ascii_of_N (n - 32) else c.

(** [s.lower()] *)
Fixpoint lower (s : string) : string :=
  match s with
  | EmptyString => EmptyString
  | String c s' => String (lower_ascii c) (lower s')
  end.

(** [s.upper()] *)
Fixpoint upper (s : string) : string :=
  match s with
  | EmptyString => EmptyString
  | String c s' => String (upper_ascii c) (upper s')
  end.

(** [s.endswith(suffix)]: some tail of [s] is [suffix]. *)
Fixpoint endswith (s suffix : string) : bool :=
  if String.eqb s suffix then true
  else match s with
       | EmptyString => false
       | String _ s' => endswith s' suffix
       end.

(** [s.endswith((a, b, ...))] *)
Definition endswith_any (s : string) (suffixes : list string) : bool :=
  existsb (endswith s) suffixes.

Fixpoint contains (c : ascii) (s : string) : bool :=
  match s with
  | EmptyString => false
  | String d s' => Ascii.eqb c d || contains c s'
  end.

(** [s.rsplit('.', 1)[0]]: what precedes the last dot, or all of [s]. *)
Fixpoint rsplit_dot_head (s : string) : string :=
  match s with
  | EmptyString => EmptyString
  | String c s' =>
      if contains "."%char s' then String c (rsplit_dot_head s')
      else if Ascii.eqb c "."%char then EmptyString
      else String c s'
  end.

(** [(p[:i], p[i:])] for [i = p.rfind('/') + 1]. *)
Fixpoint cut_after_last_slash (p : string) : string * string :=
  match p with
  | EmptyString => (EmptyString, EmptyString)
  | String c p' =>
      if contains "/"%char p' then
        let '(h, t) := cut_after_last_slash p' in (String c h, t)
      else if Ascii.eqb c "/"%char then (String c EmptyString, p')
      else (EmptyString, String c p')
  end.

(** [s.rstrip('/')] *)
Fixpoint rstrip_slash (s : string) : string :=
  match s with
  | EmptyString => EmptyString
  | String c s' =>
      match rstrip_slash s' with
      | EmptyString => if Ascii.eqb c "/"%char then EmptyString
                       else String c EmptyString
      | r => String c r
      end
  end.

Fixpoint all_slashes (s : string) : bool :=
  match s with
  | EmptyString => true
  | String c s' => Ascii.eqb c "/"%char && all_slashes s'
  end.

(** [os.path.split] (posixpath). *)
Definition path_split (p : string) : string * string :=
  let '(head, tail) := cut_after_last_slash p in
  if negb (String.eqb head EmptyString) && negb (all_slashes head)
  then (rstrip_slash head, tail)
  else (head, tail).

(** [os.path.join(a, b)] (posixpath). *)
Definition path_join (a b : string) : string :=
  match b with
  | String "/"%char _ => b
  | _ => if String.eqb a EmptyString || endswith a "/" then (a ++ b)%string
         else (a ++ "/" ++ b)%string
  end.

(** The specification of a case-insensitive suffix test: [name] splits
    into a prefix and a tail that lowers to [ext]. *)
Definition ends_with_ci (name ext : string) : Prop :=
  exists p t, name = (p ++ t)%string /\ lower t = ext.

End PyStr.

(* ------------------------------------------------------------------ *)
(** ** Python arithmetic on [int] and [float] *)

Module PyNum.

(** [float(n)]: the nearest binary64, [OverflowError] beyond its range. *)
Definition float_of_int (n : Z) : result float :=
  let f := SF2Prim (binary_normalize prec emax n 0 false) in
  if is_infinity f then Raise OverflowError else Ok f.

(** [a / b] on two ints.  CPython rounds the exact quotient once; for
    operands below 2^53 (every image dimension is) that is the binary64
    quotient of the two converted operands. *)
Definition int_truediv (a b : Z) : result float :=
  if b =? 0 then Raise ZeroDivisionError
  else fa <- float_of_int a ;; fb <- float_of_int b ;; Ok (fa / fb)%float.

(** [n * x] with [n] an int and [x] a float. *)
Definition int_mul_float (n : Z) (x : float) : result float :=
  fn <- float_of_int n ;; Ok (fn * x)%float.

(** [n / x] with [n] an int and [x] a float. *)
Definition int_div_float (n : Z) (x : float) : result float :=
  if (x =? 0)%float then Raise ZeroDivisionError
  else fn <- float_of_int n ;; Ok (fn / x)%float.

(** [int(x)]: truncation toward zero. *)
Definition int_of_float (x : float) : result Z :=
  match Prim2SF x with
  | S754_zero _ => Ok 0
  | S754_finite s m e =>
      let a := match e with
               | Z0 => Zpos m
               | Zpos p => Z.shiftl (Zpos m) (Zpos p)
               | Zneg p => Z.shiftr (Zpos m) (Zpos p)
               end in
      Ok (if s then - a else a)
  | S754_infinity _ => Raise OverflowError
  | S754_nan => Raise ValueError
  end.

(** [min(max(x, 0), 1)]: [max(a, b)] is [b] only when [b > a], [min(a, b)]
    is [b] only when [b < a]. *)
Definition clamp01 (x : float) : float :=
  let m := if (x <? 0)%float then 0%float else x in
  if (1 <? m)%float then 1%float else m.

End PyNum.

(** The C library.  CPython computes [x ** y] on two floats with the C
    library's [pow], which is not required to round correctly: its result
    may be either neighbour of the exact power (glibc gives 1.0 for
    [0.9999999999999999 ** 0.5], where the correctly rounded root is
    0.9999999999999999).  What it returns is therefore left open. *)
Class CLibrary : Type := {
  (** [pow(x, y)]; the program only raises non-negative numbers *)
  float_pow : float -> float -> float
}.

(* ------------------------------------------------------------------ *)
(** ** Pillow *)

(** [Image.mode] *)
Inductive mode : Type :=
| Bilevel   (* "1" *)
| L
| LA
| P
| RGB
| RGBA
| CMYK.

Definition mode_eqb (a b : mode) : bool :=
  match a, b with
  | Bilevel, Bilevel | L, L | LA, LA | P, P
  | RGB, RGB | RGBA, RGBA | CMYK, CMYK => true
  | _, _ => false
  end.

Record Image (pixels : Type) : Type := mkImage {
  size : Z * Z;
  mode_of : mode;
  im : pixels
}.
Arguments mkImage {pixels} size mode_of im.
Arguments size {pixels} i.
Arguments mode_of {pixels} i.
Arguments im {pixels} i.

(** The pixel-level operations of Pillow the program relies on. *)
Class Pillow : Type := {
  pixels : Type;
  (** [Image.open(stream)] with the pixel data decoded.  Pillow decodes
      lazily, at the first use of the pixels; both callers convert on the
      same line, inside the same handler, so identification and decoding
      failures are one failure here. *)
  Image_open : bytes -> result (Image pixels);
  (** pixel data of [img.convert(m)] *)
  convert_pixels : mode -> Image pixels -> pixels;
  (** pixel data of [img.resize((w, h), Image.LANCZOS)] *)
  resample : Z * Z -> Image pixels -> pixels;
  (** pixel data after [putalpha(split()[3].point(lambda x: x * v))] *)
  scale_alpha : float -> Image pixels -> pixels;
  (** pixel data of [base] after [base.paste(logo, (x, y), logo)] *)
  paste_pixels : Image pixels -> Image pixels -> Z * Z -> pixels;
  (** the bytes an encoder writes for a mode it accepts *)
  encode : string -> Z -> Image pixels -> bytes
}.

(** The modes each of the three selectable encoders writes (Pillow's
    [RAWMODE] table for JPEG, [_OUTMODES] for PNG; the WEBP plugin converts
    whatever it is given). *)
Definition writable_modes (fmt : string) : option (list mode) :=
  if String.eqb fmt "JPEG" then Some [Bilevel; L; RGB; CMYK]
  else if String.eqb fmt "PNG" then Some [Bilevel; L; LA; P; RGB; RGBA]
  else if String.eqb fmt "WEBP" then Some [Bilevel; L; LA; P; RGB; RGBA; CMYK]
  else None.

Definition writable (fmt : string) (m : mode) : bool :=
  match writable_modes fmt with
  | Some ms => existsb (mode_eqb m) ms
  | None => false
  end.

Section PillowImage.
Context {PIL : Pillow}.

Definition image : Type := Image pixels.

(** [img.convert(m)] *)
Definition convert (m : mode) (img : image) : image :=
  mkImage (size img) m (convert_pixels m img).

(** [img.resize((w, h), Image.LANCZOS)]: Pillow refuses an empty target
    ("height and width must be > 0"). *)
Definition resize (wh : Z * Z) (img : image) : result image :=
  let '(w, h) := wh in
  if (w <? 1) || (h <? 1) then Raise ValueError
  else Ok (mkImage (w, h) (mode_of img) (resample (w, h) img)).

(** [alpha = img.split()[3].point(lambda x: x * v); img.putalpha(alpha)] *)
Definition putalpha_scaled (v : float) (img : image) : image :=
  mkImage (size img) (mode_of img) (scale_alpha v img).

(** [base.paste(logo, xy, logo)]: [base] keeps its size and mode. *)
Definition paste (base logo : image) (xy : Z * Z) : image :=
  mkImage (size base) (mode_of base) (paste_pixels base logo xy).

(** [img.save(buffer, format=fmt, quality=q)] into a fresh buffer:
    [KeyError] for a format name with no encoder, [OSError] ("cannot write
    mode ... as ...") for a mode the encoder does not take. *)
Definition save (img : image) (fmt : string) (quality : Z) : result bytes :=
  match writable_modes fmt with
  | None => Raise KeyError
  | Some ms =>
      if existsb (mode_eqb (mode_of img)) ms
      then Ok (encode fmt quality img)
      else Raise OSError
  end.

(** [buffer.tell()] after the write *)
Definition tell (b : bytes) : Z := Z.of_nat (List.length b).

End PillowImage.

(* ------------------------------------------------------------------ *)
(** ** zipfile and py7zr *)

(** An opened [zipfile.ZipFile]: the members of the central directory, in
    order, each with what reading it gives (a member can be listed and
    still fail to read: bad CRC, encryption). *)
Definition ZipFile : Type := list (string * result bytes).

(** [z.namelist()] *)
Definition namelist (z : ZipFile) : list string := map fst z.

(** [z.open(name).read()]: a name is resolved through the name table, where
    a later member of the same name replaces an earlier one. *)
Definition zip_read (z : ZipFile) (name : string) : result bytes :=
  match find (fun m => String.eqb (fst m) name) (rev z) with
  | Some m => snd m
  | None => Raise KeyError
  end.

Class Containers : Type := {
  (** [zipfile.ZipFile(stream, 'r')] *)
  zipfile_open : bytes -> result ZipFile;
  (** [py7zr.SevenZipFile(stream, 'r').readall()]: a dict in insertion
      order, or [None] *)
  sevenzip_readall : bytes -> result (option (list (string * bytes)))
}.

(** A Streamlit upload: its declared name and its bytes. *)
Record UploadedFile : Type := mkUpload {
  upload_name : string;
  upload_bytes : bytes
}.

(* ------------------------------------------------------------------ *)
(** ** Logic functions (lines 10-60) *)

#[local] Set Warnings "-inexact-float".

Section Pipeline.
Context {PIL : Pillow} {LIBM : CLibrary}.

(** Lines 13-14: the encoder's name for the format. *)
Definition encoder_format (image_format : string) : string :=
  let fmt := PyStr.upper image_format in
  if String.eqb fmt "JPG" then "JPEG"%string else fmt.

(** Lines 16-17: the buffer that is serialized. *)
Definition encoder_image (fmt : string) (img : image) : image :=
  if String.eqb fmt "JPEG" && mode_eqb (mode_of img) RGBA
  then convert RGB img
  else img.

(** Lines 19-25, the [while True] loop.  [tried] is the log of the
    qualities handed to [img.save] so far. *)
Equations? compress_loop (img : image) (fmt : string) (target_bytes : Z)
    (quality : Z) (tried : list Z) : result (bytes * list Z)
    by wf (Z.to_nat (quality - 10)) lt :=
  compress_loop img fmt target_bytes quality tried
    with save img fmt quality := {
    | Raise e => Raise e
    | Ok output_buffer
        with bool_dec ((tell output_buffer <=? target_bytes) || (quality <=? 10)) true := {
        | left _ => Ok (output_buffer, tried ++ [quality])
        | right _ =>
            compress_loop img fmt target_bytes (quality - 5) (tried ++ [quality]) } }.
Proof.
  apply not_true_is_false, orb_false_iff in n. destruct n as [_ n].
  apply Z.leb_gt in n. lia.
Qed.

(** [resize_and_compress_to_buffer] with the log of [img.save] calls. *)
Definition resize_and_compress_traced (img : image) (target_size_kb : Z)
    (image_format : string) : result (bytes * list Z) :=
  let target_bytes := target_size_kb * 1024 in
  let quality := 95 in
  let fmt := encoder_format image_format in
  let img := encoder_image fmt img in
  compress_loop img fmt target_bytes quality [].

Definition resize_and_compress_to_buffer (img : image) (target_size_kb : Z)
    (image_format : string) : result bytes :=
  '(output_buffer, _) <- resize_and_compress_traced img target_size_kb image_format ;;
  Ok output_buffer.

(** Lines 31-35: the watermark's size after scaling. *)
Definition logo_scaled_size (base_size logo_size : Z * Z) : result (Z * Z) :=
  let base_area := fst base_size * snd base_size in
  target_area <- PyNum.int_mul_float base_area 0.6 ;;
  logo_aspect <- PyNum.int_truediv (fst logo_size) (snd logo_size) ;;
  logo_width <- PyNum.int_of_float (float_pow (target_area * logo_aspect) 0.5) ;;
  ratio <- PyNum.int_div_float logo_width logo_aspect ;;
  logo_height <- PyNum.int_of_float ratio ;;
  Ok (logo_width, logo_height).

(** Line 38 *)
Definition opacity_value (opacity : Z) : result float :=
  f <- PyNum.float_of_int opacity ;;
  Ok (PyNum.clamp01 (f / 100)).

(** Lines 42-43 *)
Definition paste_offset (base_size logo_size : Z * Z) : Z * Z :=
  ((fst base_size - fst logo_size) / 2, (snd base_size - snd logo_size) / 2).

(** Lines 30-45, the body of the [try]. *)
Definition watermark (base_img : image) (logo_bytes : bytes) (opacity : Z)
    : result image :=
  logo_img <- Image_open logo_bytes ;;
  let logo_img := convert RGBA logo_img in
  '(logo_width, logo_height) <- logo_scaled_size (size base_img) (size logo_img) ;;
  logo_img <- resize (logo_width, logo_height) logo_img ;;
  opacity_val <- opacity_value opacity ;;
  let logo_img := putalpha_scaled opacity_val logo_img in
  let '(x, y) := paste_offset (size base_img) (logo_width, logo_height) in
  Ok (paste base_img logo_img (x, y)).

(** [base_img.paste] is the only mutation of [base_img] and the last call
    that can be reached, so an exception leaves [base_img] as it was. *)
Definition apply_logo (base_img : image) (logo_bytes : option bytes)
    (opacity : Z) : image :=
  match logo_bytes with
  | None => base_img
  | Some lb =>
      match watermark base_img lb opacity with
      | Ok watermarked => watermarked
      | Raise _ => base_img
      end
  end.

Definition process_single_image (file_bytes : bytes) (width height : Z)
    (logo_bytes : option bytes) (opacity : Z) (target_size_kb : Z)
    (image_format : string) : result (bytes * string) :=
  img <- Image_open file_bytes ;;
  let img := convert RGBA img in
  img <- resize (width, height) img ;;
  let img := match logo_bytes with
             | Some _ => apply_logo img logo_bytes opacity
             | None => img
             end in
  let final_fmt := PyStr.lower image_format in
  processed_buffer <- resize_and_compress_to_buffer img target_size_kb final_fmt ;;
  Ok (processed_buffer, final_fmt).

(** Lines 50-52 on their own: the normalized buffer. *)
Definition normalized_buffer (file_bytes : bytes) (width height : Z)
    : result image :=
  img <- Image_open file_bytes ;;
  resize (width, height) (convert RGBA img).

(** Lines 50-56 on their own: the buffer handed to
    [resize_and_compress_to_buffer]. *)
Definition encoder_input (file_bytes : bytes) (width height : Z)
    (logo_bytes : option bytes) (opacity : Z) : result image :=
  img <- normalized_buffer file_bytes width height ;;
  Ok (match logo_bytes with
      | Some _ => apply_logo img logo_bytes opacity
      | None => img
      end).

End Pipeline.

(* ------------------------------------------------------------------ *)
(** ** Universal extractor (lines 63-85) *)

Definition image_extensions : list string :=
  [".png"; ".jpg"; ".jpeg"; ".webp"]%string.

(** [name.lower().endswith(('.png', '.jpg', '.jpeg', '.webp'))] *)
Definition is_image_name (name : string) : bool :=
  PyStr.endswith_any (PyStr.lower name) image_extensions.

(** Lines 73-76: the loop over [z.namelist()].  The generator is drained by
    [list(...)] at its only call site, so an exception while reading a member
    is an exception of the whole extraction. *)
Fixpoint zip_yield (z : ZipFile) (names : list string)
    : result (list (string * bytes)) :=
  match names with
  | [] => Ok []
  | name :: rest =>
      if is_image_name name then
        data <- zip_read z name ;;
        yielded <- zip_yield z rest ;;
        Ok ((name, data) :: yielded)
      else zip_yield z rest
  end.

(** Lines 82-85: [all_files] is falsy when it is [None] or an empty dict. *)
Definition sevenzip_yield (all_files : option (list (string * bytes)))
    : list (string * bytes) :=
  match all_files with
  | None => []
  | Some items => filter (fun item => is_image_name (fst item)) items
  end.

Section Extractor.
Context {AR : Containers}.

Definition extract_files_from_archive (uploaded_archive : UploadedFile)
    : result (list (string * bytes)) :=
  let filename := PyStr.lower (upload_name uploaded_archive) in
  if PyStr.endswith filename ".zip" then
    z <- zipfile_open (upload_bytes uploaded_archive) ;;
    zip_yield z (namelist z)
  else if PyStr.endswith filename ".7z" then
    all_files <- sevenzip_readall (upload_bytes uploaded_archive) ;;
    Ok (sevenzip_yield all_files)
  else Ok [].

End Extractor.

(* ------------------------------------------------------------------ *)
(** ** The Streamlit handlers (lines 92-184) *)

(** The sidebar's output formats (line 98). *)
Inductive output_format : Type := Webp | Png | Jpg.

Definition format_option (f : output_format) : string :=
  match f with
  | Webp => "webp"
  | Png => "png"
  | Jpg => "jpg"
  end.

(** The sidebar (lines 96-104).  [cfg_logo] is [None] when no logo was
    uploaded. *)
Record Config : Type := mkConfig {
  cfg_width : Z;
  cfg_height : Z;
  cfg_format : string;
  cfg_target_size_kb : Z;
  cfg_logo : option bytes;
  cfg_opacity : Z
}.

(** What a download button serves. *)
Inductive payload : Type :=
| RawBytes (data : bytes)
| ZipArchive (members : list (string * bytes)).

(** The argument of [progress_bar.progress]. *)
Inductive progress_value : Type :=
| Fraction (num den : Z)
| Percent (n : Z).

(** The calls on the page and the console, in order. *)
Inductive ui_event : Type :=
| st_success (msg : string)
| st_warning (msg : string)
| st_error (msg : string) (e : exn)
| st_download_button (label : string) (data : payload) (file_name mime : string)
| st_image (data : bytes)
| st_status (msg : string)
| st_progress (v : progress_value)
| print_skipped (filename : string) (e : exn).

Section Handlers.
Context {PIL : Pillow} {LIBM : CLibrary} {AR : Containers}.

(** Line 119 *)
Definition mime_type_of (final_fmt : string) : string :=
  if negb (String.eqb final_fmt "jpg") then ("image/" ++ final_fmt)%string
  else "image/jpeg"%string.

(** Lines 113-125: "Process Image" was pressed. *)
Definition single_file_mode (cfg : Config) (uploaded_file : option UploadedFile)
    : list ui_event :=
  match uploaded_file with
  | None => []
  | Some f =>
      match process_single_image (upload_bytes f) (cfg_width cfg) (cfg_height cfg)
              (cfg_logo cfg) (cfg_opacity cfg) (cfg_target_size_kb cfg)
              (cfg_format cfg) with
      | Ok (processed_buffer, final_fmt) =>
          let new_filename :=
            ("processed_" ++ PyStr.rsplit_dot_head (upload_name f)
               ++ "." ++ final_fmt)%string in
          let mime_type := mime_type_of final_fmt in
          [ st_success "Processing Complete!";
            st_download_button "Download Processed Image"
              (RawBytes processed_buffer) new_filename mime_type;
            st_image processed_buffer ]
      | Raise e => [ st_error "Error: " e ]
      end
  end.

(** Lines 150-168: the loop over the work list.  [z_out] is the output
    archive so far; the result is the page and console calls made and the
    archive at the end. *)
Fixpoint batch_loop (cfg : Config) (total_files : Z) (i : Z)
    (files : list (string * bytes)) (z_out : list (string * bytes))
    : list ui_event * list (string * bytes) :=
  match files with
  | [] => ([], z_out)
  | (filename, file_bytes) :: rest =>
      let '(logged, z_out') :=
        match process_single_image file_bytes (cfg_width cfg) (cfg_height cfg)
                (cfg_logo cfg) (cfg_opacity cfg) (cfg_target_size_kb cfg)
                (cfg_format cfg) with
        | Ok (processed_buffer, final_fmt) =>
            let '(original_path, original_name) := PyStr.path_split filename in
            let name_no_ext := PyStr.rsplit_dot_head original_name in
            let new_filename := (name_no_ext ++ "." ++ final_fmt)%string in
            let full_new_path := PyStr.path_join original_path new_filename in
            ([], z_out ++ [(full_new_path, processed_buffer)])
        | Raise e => ([print_skipped filename e], z_out)
        end in
      let '(later, z_final) := batch_loop cfg total_files (i + 1) rest z_out' in
      (st_status ("Processing: " ++ filename) :: logged
         ++ st_progress (Fraction (i + 1) total_files) :: later,
       z_final)
  end.

(** Lines 134-184: "Process Batch" was pressed. *)
Definition batch_mode (cfg : Config) (uploaded_archive : option UploadedFile)
    : list ui_event :=
  match uploaded_archive with
  | None => [ st_warning "Please upload an archive file." ]
  | Some archive =>
      st_progress (Percent 0) ::
      match extract_files_from_archive archive with
      | Raise e => [ st_error "Error reading archive: " e ]
      | Ok files_to_process =>
          let total_files := Z.of_nat (List.length files_to_process) in
          let '(shown, z_out) :=
            if total_files =? 0
            then ([ st_warning "No images found in the archive." ], [])
            else batch_loop cfg total_files 0 files_to_process [] in
          shown ++
          [ st_status "Processing complete!";
            st_progress (Percent 100);
            st_success "Batch processing complete.";
            st_download_button "Download Processed ZIP" (ZipArchive z_out)
              "processed_batch.zip" "application/zip" ]
      end
  end.

(** The output archive of a batch over a given work list. *)
Definition output_archive (cfg : Config) (files : list (string * bytes))
    : list (string * bytes) :=
  snd (batch_loop cfg (Z.of_nat (List.length files)) 0 files []).

End Handlers.

(** The encoder's name for each option, and the content type served for it. *)
Definition canonical_name (f : output_format) : string :=
  match f with Webp => "WEBP" | Png => "PNG" | Jpg => "JPEG" end.

Definition mime_of_option (f : output_format) : string :=
  match f with
  | Webp => "image/webp"
  | Png => "image/png"
  | Jpg => "image/jpeg"
  end.

(** The quality ladder of the specification. *)
Definition quality_ladder : list Z :=
  [95; 90; 85; 80; 75; 70; 65; 60; 55; 50; 45; 40; 35; 30; 25; 20; 15; 10].

(** The ladder from [10 + 5 * k] down to 10. *)
Fixpoint ladder_from (k : nat) : list Z :=
  (10 + 5 * Z.of_nat k) ::
  match k with
  | O => []
  | S k' => ladder_from k'
  end.

(** A batch entry is processed without an exception. *)
Definition entry_succeeds {PIL : Pillow} {LIBM : CLibrary} (cfg : Config) (entry : string * bytes)
    : bool :=
  is_ok (process_single_image (snd entry) (cfg_width cfg) (cfg_height cfg)
           (cfg_logo cfg) (cfg_opacity cfg) (cfg_target_size_kb cfg)
           (cfg_format cfg)).

Definition entry_fails {PIL : Pillow} {LIBM : CLibrary} (cfg : Config) (entry : string * bytes)
    : bool :=
  negb (entry_succeeds cfg entry).

(** The names the batch printed as skipped, in order. *)
Fixpoint skipped_names (events : list ui_event) : list string :=
  match events with
  | [] => []
  | print_skipped filename _ :: rest => filename :: skipped_names rest
  | _ :: rest => skipped_names rest
  end.

(** The progress reports of a batch, in order. *)
Fixpoint progress_reports (events : list ui_event) : list progress_value :=
  match events with
  | [] => []
  | st_progress v :: rest => v :: progress_reports rest
  | _ :: rest => progress_reports rest
  end.

(* ------------------------------------------------------------------ *)
(** ** A small executable instance of the two library interfaces

    Pixels are symbolic: a pixel buffer is the history of the operations
    that produced it.  A sample image file is three bytes, a tag (1 for an
    opaque image, 2 for one with transparency) followed by width and height;
    an encoded file weighs four bytes per pixel and quality step.  A sample
    container is a run of members, each a length-prefixed name followed by
    length-prefixed data. *)

Module Sample.

Inductive px : Type :=
| Decoded (data : bytes)
| Converted (m : mode) (src : px)
| Resampled (w h : Z) (src : px)
| AlphaScaled (v : float) (src : px)
| Pasted (base logo : px) (x y : Z).

Definition byte_to_Z (b : Byte.byte) : Z := Z.of_N (Byte.to_N b).

Definition open (data : bytes) : result (Image px) :=
  match data with
  | tag :: w :: h :: _ =>
      if byte_to_Z tag =? 1
      then Ok (mkImage (byte_to_Z w, byte_to_Z h) RGB (Decoded data))
      else if byte_to_Z tag =? 2
      then Ok (mkImage (byte_to_Z w, byte_to_Z h) RGBA (Decoded data))
      else Raise UnidentifiedImageError
  | _ => Raise UnidentifiedImageError
  end.

Definition encoded (fmt : string) (quality : Z) (img : Image px) : bytes :=
  let '(w, h) := size img in
  repeat Byte.x00 (Z.to_nat (4 * w * h * quality)).

#[export] Instance pillow : Pillow := {|
  pixels := px;
  Image_open := open;
  convert_pixels := fun m img => Converted m (im img);
  resample := fun wh img => Resampled (fst wh) (snd wh) (im img);
  scale_alpha := fun v img => AlphaScaled v (im img);
  paste_pixels := fun base logo xy => Pasted (im base) (im logo) (fst xy) (snd xy);
  encode := encoded
|}.

(** The sample C library answers [x ** 0.5] with the correctly rounded
    square root; [c_library_above] and [c_library_below] answer with the
    float just above and just below it.  No other exponent is asked for. *)
Definition pow_by_root (adjust : float -> float) (x y : float) : float :=
  if (y =? 0.5)%float then adjust (PrimFloat.sqrt x) else nan.

#[export] Instance c_library : CLibrary := {|
  float_pow := pow_by_root (fun root => root)
|}.

Definition c_library_above : CLibrary := {| float_pow := pow_by_root next_up |}.


Definition byte_of_nat (n : nat) : Byte.byte :=
  match Byte.of_N (N.of_nat n) with
  | Some b => b
  | None => Byte.xff
  end.

(** Packing and parsing of a sample container. *)
Fixpoint pack (members : list (string * bytes)) : bytes :=
  match members with
  | [] => []
  | (name, data) :: rest =>
      byte_of_nat (String.length name) :: list_byte_of_string name
        ++ byte_of_nat (List.length data) :: data ++ pack rest
  end.

Fixpoint parse (fuel : nat) (stream : bytes) : option (list (string * bytes)) :=
  match fuel, stream with
  | _, [] => Some []
  | O, _ :: _ => None
  | S fuel', n :: after_n =>
      let n := N.to_nat (Byte.to_N n) in
      match skipn n after_n with
      | [] => None
      | m :: after_m =>
          let m := N.to_nat (Byte.to_N m) in
          if (List.length after_m <? m)%nat then None
          else match parse fuel' (skipn m after_m) with
               | Some rest =>
                   Some ((string_of_list_byte (firstn n after_n), firstn m after_m)
                           :: rest)
               | None => None
               end
      end
  end.

#[export] Instance containers : Containers := {|
  zipfile_open := fun stream =>
    match parse (List.length stream) stream with
    | Some members => Ok (map (fun m => (fst m, Ok (snd m))) members)
    | None => Raise BadZipFile
    end;
  sevenzip_readall := fun stream =>
    match parse (List.length stream) stream with
    | Some members => Ok (Some members)
    | None => Raise Bad7zFile
    end
|}.

(** An opaque 20x20 photo, a 30x10 photo with transparency, bytes that
    are no image, and three logos: 1x1, 100x1 and 1x10. *)
Definition photo : bytes := [Byte.x01; Byte.x14; Byte.x14].
Definition cutout : bytes := [Byte.x02; Byte.x1e; Byte.x0a].
Definition garbage : bytes := [Byte.x00; Byte.x00; Byte.x00].
Definition logo_wide : bytes := [Byte.x02; Byte.x64; Byte.x01].
Definition logo_tall : bytes := [Byte.x02; Byte.x01; Byte.x0a].

(** The two photos decoded, and the first one normalized to 10x10. *)
Definition photo_img : @image pillow := mkImage (20, 20) RGB (Decoded photo).
Definition cutout_img : @image pillow := mkImage (30, 10) RGBA (Decoded cutout).
Definition small_img : @image pillow :=
  mkImage (10, 10) RGBA (Resampled 10 10 (Converted RGBA (Decoded photo))).

Definition config (fmt : string) (logo : option bytes) : Config :=
  mkConfig 10 10 fmt 10 logo 50.

Definition holiday_zip : UploadedFile :=
  mkUpload "Holiday.ZIP"
    (pack [ ("a/beach.PNG"%string, photo);
            ("a/notes.txt"%string, garbage);
            ("broken.jpg"%string, garbage);
            ("b/cat.webp"%string, cutout) ]).


Definition docs_zip : UploadedFile :=
  mkUpload "docs.zip" (pack [ ("readme.txt"%string, garbage) ]).

Definition backup_tar : UploadedFile :=
  mkUpload "backup.tar" (pack [ ("a.png"%string, photo) ]).

End Sample.


(* ------------------------------------------------------------------ *)
(** ** Further definitions used by the properties of the handlers *)

(** Lines 158-161: the member name under which a processed entry is
    written. *)
Definition output_member_name (filename final_fmt : string) : string :=
  let '(original_path, original_name) := PyStr.path_split filename in
  let name_no_ext := PyStr.rsplit_dot_head original_name in
  let new_filename := (name_no_ext ++ "." ++ final_fmt)%string in
  PyStr.path_join original_path new_filename.

(** Lines 154-163 for one entry: the member it adds to the output archive,
    if any. *)
Definition member_of {PIL : Pillow} {LIBM : CLibrary} (cfg : Config) (entry : string * bytes)
    : list (string * bytes) :=
  match process_single_image (snd entry) (cfg_width cfg) (cfg_height cfg)
          (cfg_logo cfg) (cfg_opacity cfg) (cfg_target_size_kb cfg)
          (cfg_format cfg) with
  | Ok (processed_buffer, final_fmt) =>
      [(output_member_name (fst entry) final_fmt, processed_buffer)]
  | Raise _ => []
  end.

(** The status lines a batch showed, in order. *)
Fixpoint status_messages (events : list ui_event) : list string :=
  match events with
  | [] => []
  | st_status msg :: rest => msg :: status_messages rest
  | _ :: rest => status_messages rest
  end.

(** The last character of [s] is [c]. *)
Fixpoint ends_in (c : ascii) (s : string) : bool :=
  match s with
  | EmptyString => false
  | String d EmptyString => Ascii.eqb c d
  | String _ s' => ends_in c s'
  end.

(** The qualities a linear search over [ladder] saves at: it stops at the
    first quality that fits, or that is 10 or less. *)
Fixpoint first_fit (fits : Z -> bool) (ladder : list Z) : list Z :=
  match ladder with
  | [] => []
  | q :: rest =>
      if fits q || (q <=? 10) then [q] else q :: first_fit fits rest
  end.

(** A serialization at quality [q] is within [target_size_kb] kilobytes. *)
Definition fits_ceiling {PIL : Pillow} (fmt : string) (img : image)
    (target_size_kb : Z) (q : Z) : bool :=
  tell (encode fmt q img) <=? target_size_kb * 1024.

(** More sample inputs.  In [strict_containers] a zip member whose data
    starts with the byte [ff] is listed but cannot be read. *)
Module MoreSamples.

Definition unreadable (data : bytes) : bool :=
  match data with
  | Byte.xff :: _ => true
  | _ => false
  end.

Definition strict_containers : Containers := {|
  zipfile_open := fun stream =>
    match Sample.parse (List.length stream) stream with
    | Some members =>
        Ok (map (fun m => (fst m, if unreadable (snd m) then Raise BadZipFile
                                  else Ok (snd m))) members)
    | None => Raise BadZipFile
    end;
  sevenzip_readall := fun stream =>
    match Sample.parse (List.length stream) stream with
    | Some members => Ok (Some members)
    | None => Raise Bad7zFile
    end
|}.

Definition damaged_zip : UploadedFile :=
  mkUpload "damaged.zip"
    (Sample.pack [ ("a.png"%string, Sample.photo);
                   ("b.jpg"%string, [Byte.xff; Byte.x00]);
                   ("c.txt"%string, Sample.garbage) ]).

(** A 4x4 buffer in mode LA. *)
Definition grey_alpha_img : @image Sample.pillow :=
  mkImage (4, 4) LA (Sample.Decoded []).

Definition album : list (string * bytes) :=
  [ ("a/beach.PNG"%string, Sample.photo);
    ("broken.jpg"%string, Sample.garbage);
    ("b/cat.webp"%string, Sample.cutout) ].

End MoreSamples.

(* ================================================================== *)
(** * Properties *)

(** ** Strings *)

Module PyStrFacts.
Import PyStr.

Lemma endswith_refl (s : string) : endswith s s = true.
Proof. destruct s; cbn [endswith]; rewrite String.eqb_refl; reflexivity. Qed.

Lemma endswith_cons (c : ascii) (s suffix : string) :
  endswith s suffix = true -> endswith (String c s) suffix = true.
Proof.
  intros H. cbn [endswith].
  destruct (String.eqb (String c s) suffix); [reflexivity | exact H].
Qed.

(** [endswith] finds exactly the suffixes. *)
Lemma endswith_iff (s suffix : string) :
  endswith s suffix = true <-> exists p, s = (p ++ suffix)%string.
Proof.
  split.
  - induction s as [| c s IH]; cbn [endswith].
    + destruct (String.eqb "" suffix) eqn:E; [| discriminate].
      apply String.eqb_eq in E. intros _. exists ""%string. subst. reflexivity.
    + destruct (String.eqb (String c s) suffix) eqn:E.
      * apply String.eqb_eq in E. intros _. exists ""%string. subst. reflexivity.
      * intros H. destruct (IH H) as [p Hp]. exists (String c p). subst. reflexivity.
  - intros [p ->]. induction p as [| c p IH].
    + apply endswith_refl.
    + apply endswith_cons, IH.
Qed.

Lemma lower_app (a b : string) : lower (a ++ b) = (lower a ++ lower b)%string.
Proof. induction a as [| c a IH]; simpl; [reflexivity | rewrite IH; reflexivity]. Qed.

(** A split of [lower s] comes from a split of [s]. *)
Lemma lower_split (s p' t' : string) :
  lower s = (p' ++ t')%string ->
  exists p t, s = (p ++ t)%string /\ lower p = p' /\ lower t = t'.
Proof.
  revert s. induction p' as [| c p' IH]; intros s H; simpl in H.
  - exists ""%string, s. auto.
  - destruct s as [| d s]; simpl in H; [discriminate |].
    injection H as Hc Hs. destruct (IH s Hs) as (p & t & -> & Hp & Ht).
    exists (String d p), t. simpl. rewrite Hp, Hc. auto.
Qed.

(** The program's suffix tests are case-insensitive suffix tests. *)
Lemma endswith_lower_iff (name ext : string) :
  endswith (lower name) ext = true <-> ends_with_ci name ext.
Proof.
  rewrite endswith_iff. split.
  - intros [p' H]. destruct (lower_split _ _ _ H) as (p & t & -> & _ & Ht).
    exists p, t. auto.
  - intros (p & t & -> & Ht). exists (lower p). rewrite lower_app, Ht. reflexivity.
Qed.

Lemma endswith_lower_false (name ext : string) :
  ~ ends_with_ci name ext -> endswith (lower name) ext = false.
Proof.
  intros H. destruct (endswith (lower name) ext) eqn:E; [| reflexivity].
  apply endswith_lower_iff in E. contradiction.
Qed.

End PyStrFacts.


(** ** The extractor *)


Lemma filter_split_length {A : Type} (f : A -> bool) (l : list A) :
  (List.length (filter f l) + List.length (filter (fun x => negb (f x)) l)
   = List.length l)%nat.
Proof.
  induction l as [| a l IH]; simpl; [reflexivity |].
  destruct (f a); simpl; lia.
Qed.

Section ExtractorFacts.
Context {AR : Containers}.

(** C10: an archive named neither [.zip] nor [.7z] (whatever the letter
    case) yields the empty sequence, and no exception is raised: neither
    container library is called. *)
Theorem C10_unrecognized_suffix_yields_nothing (uploaded_archive : UploadedFile) :
  ~ PyStr.ends_with_ci (upload_name uploaded_archive) ".zip" ->
  ~ PyStr.ends_with_ci (upload_name uploaded_archive) ".7z" ->
  extract_files_from_archive uploaded_archive = Ok [].
Proof.
  intros Hzip H7z. unfold extract_files_from_archive.
  rewrite (PyStrFacts.endswith_lower_false _ _ Hzip).
  rewrite (PyStrFacts.endswith_lower_false _ _ H7z).
  reflexivity.
Qed.


End ExtractorFacts.

(** ** The size-constrained encoder *)

Lemma ladder_from_17 : ladder_from 17 = quality_ladder.
Proof. reflexivity. Qed.

Lemma firstn_ladder_nonempty (n k : nat) :
  (1 <= n)%nat -> firstn n (ladder_from k) <> [].
Proof. destruct n; [lia |]. destruct k; discriminate. Qed.

Section EncoderFacts.
Context {PIL : Pillow}.

Lemma save_writable (img : image) (fmt : string) (quality : Z) :
  writable fmt (mode_of img) = true ->
  save img fmt quality = Ok (encode fmt quality img).
Proof.
  unfold writable, save. destruct (writable_modes fmt); [| discriminate].
  intros ->. reflexivity.
Qed.

Lemma save_not_writable (img : image) (fmt : string) (quality : Z) :
  writable fmt (mode_of img) = false -> is_ok (save img fmt quality) = false.
Proof.
  unfold writable, save. destruct (writable_modes fmt); [| reflexivity].
  intros ->. reflexivity.
Qed.

(** One turn of the [while True] loop. *)
Lemma compress_loop_step (img : image) (fmt : string)
    (target_bytes quality : Z) (tried : list Z) :
  compress_loop img fmt target_bytes quality tried =
  match save img fmt quality with
  | Raise e => Raise e
  | Ok output_buffer =>
      if (tell output_buffer <=? target_bytes) || (quality <=? 10)
      then Ok (output_buffer, tried ++ [quality])
      else compress_loop img fmt target_bytes (quality - 5) (tried ++ [quality])
  end.
Proof.
  rewrite compress_loop_equation_1.
  destruct (save img fmt quality) as [output_buffer | e]; simpl; [| reflexivity].
  destruct (bool_dec _ true) as [Hstop | Hgo]; simpl.
  - rewrite Hstop. reflexivity.
  - apply not_true_is_false in Hgo. rewrite Hgo. reflexivity.
Qed.

(** From quality [10 + 5 * k] the loop walks down the ladder, stops at the
    first quality that fits or at 10, and has saved at most [k + 1] times. *)
Lemma compress_loop_ladder (img : image) (fmt : string) (target_bytes : Z) :
  writable fmt (mode_of img) = true ->
  forall (k : nat) (tried : list Z),
  exists n : nat,
    (1 <= n <= S k)%nat /\
    compress_loop img fmt target_bytes (10 + 5 * Z.of_nat k) tried
    = Ok (encode fmt (last (firstn n (ladder_from k)) 0) img,
          tried ++ firstn n (ladder_from k)) /\
    (tell (encode fmt (last (firstn n (ladder_from k)) 0) img) <= target_bytes
     \/ last (firstn n (ladder_from k)) 0 = 10) /\
    (forall q, In q (removelast (firstn n (ladder_from k))) ->
               target_bytes < tell (encode fmt q img)).
Proof.
  intros W k. induction k as [| k IH]; intros tried.
  - exists 1%nat. rewrite compress_loop_step, (save_writable _ _ _ W).
    simpl. rewrite orb_true_r.
    split; [lia |]. split; [reflexivity |]. split; [right; reflexivity |].
    intros q [].
  - rewrite compress_loop_step, (save_writable _ _ _ W).
    set (q := 10 + 5 * Z.of_nat (S k)).
    destruct ((tell (encode fmt q img) <=? target_bytes) || (q <=? 10)) eqn:Hstop.
    + exists 1%nat. split; [lia |]. split; [reflexivity |]. split.
      * left. simpl. fold q. apply orb_true_iff in Hstop.
        destruct Hstop as [H | H]; [apply Z.leb_le in H; exact H |].
        apply Z.leb_le in H. unfold q in H. lia.
      * intros q' [].
    + apply orb_false_iff in Hstop. destruct Hstop as [Hbig _].
      apply Z.leb_gt in Hbig.
      replace (q - 5) with (10 + 5 * Z.of_nat k) by (unfold q; lia).
      destruct (IH (tried ++ [q])) as (n & Hn & Hrun & Hlast & Hfirst).
      pose proof (firstn_ladder_nonempty n k (proj1 Hn)) as Hne.
      exists (S n). split; [lia |].
      change (firstn (S n) (ladder_from (S k))) with (q :: firstn n (ladder_from k)).
      destruct (firstn n (ladder_from k)) as [| q0 qs] eqn:Hqs; [contradiction |].
      change (last (q :: q0 :: qs) 0) with (last (q0 :: qs) 0).
      change (removelast (q :: q0 :: qs)) with (q :: removelast (q0 :: qs)).
      split; [| split; [exact Hlast |]].
      * rewrite Hrun, <- app_assoc. reflexivity.
      * intros q' [<- | Hin]; [exact Hbig | apply Hfirst, Hin].
Qed.

Lemma format_option_cases (f : output_format) :
  encoder_format (format_option f) = "WEBP"%string \/
  encoder_format (format_option f) = "PNG"%string \/
  encoder_format (format_option f) = "JPEG"%string.
Proof. destruct f; cbv; auto. Qed.

(** After lines 16-17 a buffer in either colour model of the pipeline is
    one the selected encoder writes. *)
Lemma encoder_image_writable (img : image) (f : output_format) :
  mode_of img = RGBA \/ mode_of img = RGB ->
  writable (encoder_format (format_option f))
           (mode_of (encoder_image (encoder_format (format_option f)) img)) = true.
Proof.
  intros [Hm | Hm]; unfold encoder_image; rewrite Hm; destruct f; cbn;
    rewrite ?Hm; reflexivity.
Qed.

Lemma encoder_image_size (fmt : string) (img : image) :
  size (encoder_image fmt img) = size img.
Proof. unfold encoder_image. destruct (_ && _); reflexivity. Qed.

Lemma traced_run (img : image) (target_size_kb : Z) (image_format : string) :
  writable (encoder_format image_format)
           (mode_of (encoder_image (encoder_format image_format) img)) = true ->
  exists output_buffer tried,
    resize_and_compress_traced img target_size_kb image_format
    = Ok (output_buffer, tried) /\
    resize_and_compress_to_buffer img target_size_kb image_format
    = Ok output_buffer /\
    tried = firstn (List.length tried) quality_ladder /\
    (1 <= List.length tried <= 18)%nat /\
    output_buffer = encode (encoder_format image_format) (last tried 0)
                      (encoder_image (encoder_format image_format) img) /\
    (tell output_buffer <= target_size_kb * 1024 \/ last tried 0 = 10) /\
    (forall q, In q (removelast tried) ->
       target_size_kb * 1024
       < tell (encode (encoder_format image_format) q
                 (encoder_image (encoder_format image_format) img))).
Proof.
  intros W.
  destruct (compress_loop_ladder _ _ (target_size_kb * 1024) W 17 [])
    as (n & Hn & Hrun & Hlast & Hfirst).
  change (10 + 5 * Z.of_nat 17) with 95 in Hrun. rewrite ladder_from_17 in *.
  simpl app in Hrun.
  assert (Hlen : List.length (firstn n quality_ladder) = n).
  { rewrite length_firstn. change (List.length quality_ladder) with 18%nat. lia. }
  exists (encode (encoder_format image_format) (last (firstn n quality_ladder) 0)
            (encoder_image (encoder_format image_format) img)),
         (firstn n quality_ladder).
  unfold resize_and_compress_to_buffer, resize_and_compress_traced.
  rewrite Hrun, Hlen. simpl.
  repeat (split; [first [reflexivity | lia | assumption] |]). exact Hfirst.
Qed.

(** C1: the encoder saves at the qualities 95, 90, ..., in that order,
    stops at the first whose serialization fits the ceiling or else at 10,
    saves at most 18 times, and always returns that last serialization,
    fitting or not.  The buffer is in one of the two colour models of the
    pipeline and the format one the configuration offers. *)
Theorem C1_quality_ladder_search (img : image) (f : output_format)
    (target_size_kb : Z) :
  mode_of img = RGBA \/ mode_of img = RGB ->
  let fmt := encoder_format (format_option f) in
  let serialized := encoder_image fmt img in
  exists output_buffer tried,
    resize_and_compress_traced img target_size_kb (format_option f)
    = Ok (output_buffer, tried) /\
    resize_and_compress_to_buffer img target_size_kb (format_option f)
    = Ok output_buffer /\
    tried = firstn (List.length tried) quality_ladder /\
    (1 <= List.length tried <= 18)%nat /\
    output_buffer = encode fmt (last tried 0) serialized /\
    (tell output_buffer <= target_size_kb * 1024 \/ last tried 0 = 10) /\
    (forall q, In q (removelast tried) ->
       target_size_kb * 1024 < tell (encode fmt q serialized)).
Proof.
  intros Hmode fmt serialized.
  apply traced_run, encoder_image_writable, Hmode.
Qed.

End EncoderFacts.

(** ** The watermark and the single-image pipeline *)

Section PipelineFacts.
Context {PIL : Pillow} {LIBM : CLibrary}.

(** What a completed [try] body has done. *)
Lemma watermark_ok (base_img : image) (logo_bytes : bytes) (opacity : Z)
    (watermarked : image) :
  watermark base_img logo_bytes opacity = Ok watermarked ->
  exists logo_img w h stamped v,
    Image_open logo_bytes = Ok logo_img /\
    logo_scaled_size (size base_img) (size logo_img) = Ok (w, h) /\
    resize (w, h) (convert RGBA logo_img) = Ok stamped /\
    opacity_value opacity = Ok v /\
    watermarked = paste base_img (putalpha_scaled v stamped)
                    (paste_offset (size base_img) (w, h)).
Proof.
  unfold watermark. intros H.
  destruct (Image_open logo_bytes) as [logo_img |] eqn:O; [| discriminate].
  cbn [bind] in H. change (size (convert RGBA logo_img)) with (size logo_img) in H.
  destruct (logo_scaled_size (size base_img) (size logo_img)) as [[w h] |] eqn:S;
    [| discriminate].
  cbn [bind] in H.
  destruct (resize (w, h) (convert RGBA logo_img)) as [stamped |] eqn:R;
    [| discriminate].
  cbn [bind] in H.
  destruct (opacity_value opacity) as [v |] eqn:V; [| discriminate].
  cbv beta iota zeta delta [bind paste_offset] in H. injection H as <-.
  exists logo_img, w, h, stamped, v. repeat split; reflexivity || assumption.
Qed.

(** [apply_logo] returns a buffer of the size and mode it was given. *)
Lemma apply_logo_size_mode (base_img : image) (logo_bytes : option bytes)
    (opacity : Z) :
  size (apply_logo base_img logo_bytes opacity) = size base_img /\
  mode_of (apply_logo base_img logo_bytes opacity) = mode_of base_img.
Proof.
  unfold apply_logo. destruct logo_bytes as [lb |]; [| auto].
  destruct (watermark base_img lb opacity) as [r |] eqn:E; [| auto].
  apply watermark_ok in E. destruct E as (? & ? & ? & ? & ? & _ & _ & _ & _ & ->).
  auto.
Qed.

Lemma resize_ok (w h : Z) (img : image) :
  1 <= w -> 1 <= h ->
  resize (w, h) img = Ok (mkImage (w, h) (mode_of img) (resample (w, h) img)).
Proof.
  intros Hw Hh. unfold resize.
  destruct (w <? 1) eqn:E1; [apply Z.ltb_lt in E1; lia |].
  destruct (h <? 1) eqn:E2; [apply Z.ltb_lt in E2; lia |].
  reflexivity.
Qed.

Lemma normalized_buffer_ok (file_bytes : bytes) (width height : Z) (decoded : image) :
  Image_open file_bytes = Ok decoded -> 1 <= width -> 1 <= height ->
  exists img,
    normalized_buffer file_bytes width height = Ok img /\
    size img = (width, height) /\ mode_of img = RGBA.
Proof.
  intros Hopen Hw Hh. unfold normalized_buffer. rewrite Hopen. cbn [bind].
  rewrite (resize_ok _ _ _ Hw Hh). eexists. split; [reflexivity |]. auto.
Qed.

Lemma encoder_input_ok (file_bytes : bytes) (width height : Z) (decoded : image)
    (logo_bytes : option bytes) (opacity : Z) :
  Image_open file_bytes = Ok decoded -> 1 <= width -> 1 <= height ->
  exists img,
    encoder_input file_bytes width height logo_bytes opacity = Ok img /\
    size img = (width, height) /\ mode_of img = RGBA.
Proof.
  intros Hopen Hw Hh. unfold encoder_input.
  destruct (normalized_buffer_ok _ _ _ _ Hopen Hw Hh) as (img & -> & Hs & Hm).
  cbn [bind]. eexists. split; [reflexivity |].
  destruct logo_bytes; [| auto].
  destruct (apply_logo_size_mode img (Some b) opacity) as [-> ->]. auto.
Qed.

(** [process_single_image] is its first lines followed by the encoder. *)
Lemma process_single_image_stages (file_bytes : bytes) (width height : Z)
    (logo_bytes : option bytes) (opacity target_size_kb : Z)
    (image_format : string) :
  process_single_image file_bytes width height logo_bytes opacity
    target_size_kb image_format
  = (img <- encoder_input file_bytes width height logo_bytes opacity ;;
     processed_buffer <- resize_and_compress_to_buffer img target_size_kb
                           (PyStr.lower image_format) ;;
     Ok (processed_buffer, PyStr.lower image_format)).
Proof.
  unfold process_single_image, encoder_input, normalized_buffer.
  destruct (Image_open file_bytes); [| reflexivity]. cbn [bind].
  destruct (resize (width, height) (convert RGBA a)); reflexivity.
Qed.

Lemma lower_format_option (f : output_format) :
  PyStr.lower (format_option f) = format_option f.
Proof. destruct f; reflexivity. Qed.

(** C7: a decodable input and a positive target size give a normalized
    buffer of exactly that size with an alpha channel; the buffer handed to
    the encoder, watermarked or not, still has that size, and the buffer
    the encoder serializes has it too, in a mode the selected format
    writes. *)
Theorem C7_normalized_geometry_and_mode (file_bytes : bytes) (width height : Z)
    (decoded : image) :
  Image_open file_bytes = Ok decoded -> 1 <= width -> 1 <= height ->
  exists normalized,
    normalized_buffer file_bytes width height = Ok normalized /\
    size normalized = (width, height) /\
    mode_of normalized = RGBA /\
    forall (logo_bytes : option bytes) (opacity target_size_kb : Z)
           (f : output_format),
    exists img,
      encoder_input file_bytes width height logo_bytes opacity = Ok img /\
      process_single_image file_bytes width height logo_bytes opacity
        target_size_kb (format_option f)
      = (processed_buffer <- resize_and_compress_to_buffer img target_size_kb
                               (format_option f) ;;
         Ok (processed_buffer, format_option f)) /\
      size img = (width, height) /\
      mode_of img = RGBA /\
      size (encoder_image (encoder_format (format_option f)) img)
      = (width, height) /\
      writable (encoder_format (format_option f))
        (mode_of (encoder_image (encoder_format (format_option f)) img)) = true.
Proof.
  intros Hopen Hw Hh.
  destruct (normalized_buffer_ok _ _ _ _ Hopen Hw Hh) as (n & Hn & Hs & Hm).
  exists n. repeat (split; [assumption |]).
  intros logo_bytes opacity target_size_kb f.
  destruct (encoder_input_ok _ _ _ _ logo_bytes opacity Hopen Hw Hh)
    as (img & Himg & His & Him).
  exists img. split; [exact Himg |]. split.
  { rewrite process_single_image_stages, Himg, lower_format_option. reflexivity. }
  split; [exact His |]. split; [exact Him |]. split.
  - rewrite encoder_image_size. exact His.
  - apply encoder_image_writable. left. exact Him.
Qed.

(** C9: a buffer with an alpha channel bound for JPEG is converted to RGB
    before it is saved (saving it as it is would raise), and the encoder
    then returns a serialization of the RGB buffer.  End to end, a
    decodable image with transparency and the [jpg] option give a result,
    the JPEG serialization of an RGB buffer of the target size. *)
Theorem C9_alpha_flattened_for_jpeg (img : image) (target_size_kb : Z)
    (image_format : string) :
  mode_of img = RGBA ->
  encoder_format image_format = "JPEG"%string ->
  encoder_image "JPEG" img = convert RGB img /\
  mode_of (encoder_image "JPEG" img) = RGB /\
  size (encoder_image "JPEG" img) = size img /\
  (forall quality, is_ok (save img "JPEG" quality) = false) /\
  (exists output_buffer tried,
      resize_and_compress_traced img target_size_kb image_format
      = Ok (output_buffer, tried) /\
      resize_and_compress_to_buffer img target_size_kb image_format
      = Ok output_buffer /\
      output_buffer = encode "JPEG" (last tried 0) (convert RGB img)) /\
  (forall file_bytes width height decoded logo_bytes opacity,
      Image_open file_bytes = Ok decoded -> 1 <= width -> 1 <= height ->
      exists flattened quality,
        process_single_image file_bytes width height logo_bytes opacity
          target_size_kb "jpg"
        = Ok (encode "JPEG" quality flattened, "jpg"%string) /\
        mode_of flattened = RGB /\
        size flattened = (width, height)).
Proof.
  intros Hm Hfmt.
  assert (Hflat : forall i : image, mode_of i = RGBA ->
                    encoder_image "JPEG" i = convert RGB i).
  { intros i Hi. unfold encoder_image. rewrite Hi. reflexivity. }
  split; [apply Hflat, Hm |]. rewrite (Hflat img Hm).
  split; [reflexivity |]. split; [reflexivity |]. split.
  { intros quality. apply save_not_writable. rewrite Hm. reflexivity. }
  split.
  - destruct (traced_run img target_size_kb image_format)
      as (buf & tried & Ht & Hb & _ & _ & Hout & _).
    { rewrite Hfmt, (Hflat img Hm). reflexivity. }
    rewrite Hfmt, (Hflat img Hm) in Hout. exists buf, tried. auto.
  - intros file_bytes width height decoded logo_bytes opacity Hopen Hw Hh.
    destruct (encoder_input_ok _ _ _ _ logo_bytes opacity Hopen Hw Hh)
      as (e & He & Hes & Hem).
    destruct (traced_run e target_size_kb "jpg")
      as (buf & tried & _ & Hb & _ & _ & Hout & _).
    { change (encoder_format "jpg") with "JPEG"%string.
      rewrite (Hflat e Hem). reflexivity. }
    change (encoder_format "jpg") with "JPEG"%string in Hout.
    rewrite (Hflat e Hem) in Hout.
    exists (convert RGB e), (last tried 0).
    rewrite process_single_image_stages, He. cbn [bind].
    change (PyStr.lower "jpg") with "jpg"%string. rewrite Hb. cbn [bind].
    rewrite Hout. auto.
Qed.

(** C3: when the watermark cannot be decoded, [apply_logo] returns the
    base buffer it was given, and so does it after any other exception of
    its [try] body; the pipeline's output is then its output without a
    watermark. *)
Theorem C3_corrupt_watermark_is_ignored (logo_bytes : bytes) :
  is_ok (Image_open logo_bytes) = false ->
  (forall base_img opacity,
      apply_logo base_img (Some logo_bytes) opacity = base_img) /\
  (forall base_img any_logo opacity,
      is_ok (watermark base_img any_logo opacity) = false ->
      apply_logo base_img (Some any_logo) opacity = base_img) /\
  (forall file_bytes width height opacity target_size_kb image_format,
      process_single_image file_bytes width height (Some logo_bytes) opacity
        target_size_kb image_format
      = process_single_image file_bytes width height None opacity
          target_size_kb image_format).
Proof.
  intros Hbad.
  assert (Hswallow : forall base_img any_logo opacity,
             is_ok (watermark base_img any_logo opacity) = false ->
             apply_logo base_img (Some any_logo) opacity = base_img).
  { intros base_img any_logo opacity H. unfold apply_logo.
    destruct (watermark base_img any_logo opacity); [discriminate | reflexivity]. }
  assert (Hcorrupt : forall base_img opacity,
             apply_logo base_img (Some logo_bytes) opacity = base_img).
  { intros base_img opacity. apply Hswallow. unfold watermark.
    destruct (Image_open logo_bytes); [discriminate | reflexivity]. }
  split; [exact Hcorrupt |]. split; [exact Hswallow |].
  intros. unfold process_single_image.
  destruct (Image_open file_bytes); [| reflexivity]. cbn [bind].
  destruct (resize (width, height) (convert RGBA a)); [| reflexivity]. cbn [bind].
  rewrite Hcorrupt. reflexivity.
Qed.

End PipelineFacts.

(** ** The watermark's geometry *)


Section WatermarkFacts.
Context {PIL : Pillow} {LIBM : CLibrary}.



End WatermarkFacts.

(** ** The returned format string *)

Section FormatFacts.
Context {PIL : Pillow} {LIBM : CLibrary}.

Lemma encoder_input_inv (file_bytes : bytes) (width height : Z)
    (logo_bytes : option bytes) (opacity : Z) (img : image) :
  encoder_input file_bytes width height logo_bytes opacity = Ok img ->
  size img = (width, height) /\ mode_of img = RGBA.
Proof.
  unfold encoder_input, normalized_buffer. intros H.
  destruct (Image_open file_bytes) as [decoded |]; [| discriminate].
  cbn [bind] in H. unfold resize in H.
  destruct ((width <? 1) || (height <? 1)); [discriminate |].
  cbn [bind] in H. injection H as <-.
  destruct logo_bytes as [lb |]; [| auto].
  destruct (apply_logo_size_mode
              (mkImage (width, height) RGBA
                 (resample (width, height) (convert RGBA decoded)))
              (Some lb) opacity) as [-> ->].
  auto.
Qed.

(** C5, as the code has it: the pipeline returns the selected option
    itself, lower-cased ([jpg] stays [jpg]); the canonical name is used
    only inside the encoder, for the serialization; the single-file
    handler takes the extension from the returned string as it is and the
    MIME type from it with [jpg] mapped to [image/jpeg]. *)
Theorem C5_returned_format_is_the_selected_option (file_bytes : bytes)
    (width height : Z) (logo_bytes : option bytes)
    (opacity target_size_kb : Z) (f : output_format)
    (processed_buffer : bytes) (final_fmt : string) :
  process_single_image file_bytes width height logo_bytes opacity
    target_size_kb (format_option f) = Ok (processed_buffer, final_fmt) ->
  final_fmt = format_option f /\
  encoder_format final_fmt = canonical_name f /\
  (exists img quality,
      processed_buffer = encode (canonical_name f) quality img) /\
  mime_type_of final_fmt = mime_of_option f /\
  (forall name,
      single_file_mode
        (mkConfig width height (format_option f) target_size_kb logo_bytes opacity)
        (Some (mkUpload name file_bytes))
      = [ st_success "Processing Complete!";
          st_download_button "Download Processed Image" (RawBytes processed_buffer)
            ("processed_" ++ PyStr.rsplit_dot_head name ++ "." ++ format_option f)
            (mime_of_option f);
          st_image processed_buffer ]).
Proof.
  intros H.
  assert (Hfmt : final_fmt = format_option f).
  { rewrite process_single_image_stages, lower_format_option in H.
    destruct (encoder_input _ _ _ _ _); [| discriminate]. cbn [bind] in H.
    destruct (resize_and_compress_to_buffer _ _ _); [| discriminate].
    cbn [bind] in H. congruence. }
  subst final_fmt.
  split; [reflexivity |]. split; [destruct f; reflexivity |]. split.
  - rewrite process_single_image_stages, lower_format_option in H.
    destruct (encoder_input _ _ _ _ _) as [e |] eqn:He; [| discriminate].
    cbn [bind] in H. apply encoder_input_inv in He. destruct He as [_ Hm].
    destruct (traced_run e target_size_kb (format_option f))
      as (buf & tried & _ & Hb & _ & _ & Hout & _).
    { apply encoder_image_writable. left. exact Hm. }
    rewrite Hb in H. cbn [bind] in H. injection H as <-.
    replace (canonical_name f) with (encoder_format (format_option f))
      by (destruct f; reflexivity).
    eauto.
  - split; [destruct f; reflexivity |].
    intros name. unfold single_file_mode. cbn [upload_bytes cfg_width cfg_height
      cfg_logo cfg_opacity cfg_target_size_kb cfg_format upload_name].
    rewrite H. destruct f; reflexivity.
Qed.

End FormatFacts.

(** ** The batch *)

Section BatchFacts.
Context {PIL : Pillow} {LIBM : CLibrary}.

Lemma skipped_names_app (a b : list ui_event) :
  skipped_names (a ++ b) = (skipped_names a ++ skipped_names b)%list.
Proof.
  induction a as [| e a IH]; [reflexivity |].
  destruct e; simpl; rewrite IH; reflexivity.
Qed.

Lemma progress_reports_app (a b : list ui_event) :
  progress_reports (a ++ b) = (progress_reports a ++ progress_reports b)%list.
Proof.
  induction a as [| e a IH]; [reflexivity |].
  destruct e; simpl; rewrite IH; reflexivity.
Qed.

(** The loop visits every entry, appends one member per entry that is
    processed and prints one line per entry that is not. *)
Lemma batch_loop_spec (cfg : Config) (total_files : Z)
    (files : list (string * bytes)) :
  forall (i : Z) (z_out : list (string * bytes)),
    skipped_names (fst (batch_loop cfg total_files i files z_out))
    = map fst (filter (entry_fails cfg) files) /\
    List.length (progress_reports (fst (batch_loop cfg total_files i files z_out)))
    = List.length files /\
    (List.length (snd (batch_loop cfg total_files i files z_out))
     = List.length z_out + List.length (filter (entry_succeeds cfg) files))%nat.
Proof.
  induction files as [| [filename file_bytes] rest IH]; intros i z_out.
  - simpl. repeat split; lia.
  - cbn [batch_loop filter].
    change (entry_fails cfg (filename, file_bytes))
      with (negb (entry_succeeds cfg (filename, file_bytes))).
    change (entry_succeeds cfg (filename, file_bytes))
      with (is_ok (process_single_image file_bytes (cfg_width cfg) (cfg_height cfg)
                     (cfg_logo cfg) (cfg_opacity cfg) (cfg_target_size_kb cfg)
                     (cfg_format cfg))).
    destruct (process_single_image _ _ _ _ _ _ _) as [[buf fmt] |] eqn:E;
      cbn [is_ok negb].
    + destruct (PyStr.path_split filename) as [original_path original_name].
      match goal with
      | |- context [batch_loop cfg total_files (i + 1) rest ?z] =>
          specialize (IH (i + 1) z); destruct (batch_loop cfg total_files (i + 1) rest z)
            as [later z_final]
      end.
      cbn [fst snd] in *. destruct IH as (Hs & Hp & Hl).
      cbn [skipped_names progress_reports app List.length].
      rewrite Hs, Hp, Hl, length_app. cbn [List.length]. repeat split; lia.
    + specialize (IH (i + 1) z_out).
      destruct (batch_loop cfg total_files (i + 1) rest z_out) as [later z_final].
      cbn [fst snd] in *. destruct IH as (Hs & Hp & Hl).
      cbn [skipped_names progress_reports app List.length map fst].
      rewrite Hs, Hp, Hl. repeat split; lia.
Qed.

Lemma filter_fails_succeeds (cfg : Config) (files : list (string * bytes)) :
  (List.length (filter (entry_succeeds cfg) files)
   + List.length (filter (entry_fails cfg) files) = List.length files)%nat.
Proof. apply filter_split_length. Qed.

Lemma filter_nonempty {A : Type} (p : A -> bool) (l : list A) (x : A) :
  In x l -> p x = true -> (1 <= List.length (filter p l))%nat.
Proof.
  intros Hin Hp. assert (H : In x (filter p l)) by (apply filter_In; auto).
  destruct (filter p l); [contradiction | simpl; lia].
Qed.

End BatchFacts.

Section BatchModeFacts.
Context {PIL : Pillow} {LIBM : CLibrary} {AR : Containers}.

Lemma batch_mode_work_list (cfg : Config) (archive : UploadedFile)
    (files : list (string * bytes)) :
  extract_files_from_archive archive = Ok files -> files <> [] ->
  batch_mode cfg (Some archive)
  = st_progress (Percent 0)
      :: fst (batch_loop cfg (Z.of_nat (List.length files)) 0 files [])
      ++ [ st_status "Processing complete!";
           st_progress (Percent 100);
           st_success "Batch processing complete.";
           st_download_button "Download Processed ZIP"
             (ZipArchive (output_archive cfg files))
             "processed_batch.zip" "application/zip" ].
Proof.
  intros Hx Hne. unfold batch_mode, output_archive. rewrite Hx.
  destruct files as [| entry rest]; [contradiction |].
  replace (Z.of_nat (List.length (entry :: rest)) =? 0) with false
    by (symmetry; apply Z.eqb_neq; simpl List.length; lia).
  destruct (batch_loop _ _ _ _ _). reflexivity.
Qed.

(** C4: an entry whose processing raises is printed as skipped and adds
    nothing to the output archive; the loop goes on to the entries after
    it.  The archive offered at the end has one member per entry that was
    processed: no more members than entries, fewer as soon as one entry
    fails, and all but one when exactly one fails. *)
Theorem C4_failed_entries_are_skipped (cfg : Config)
    (files : list (string * bytes)) :
  let events := fst (batch_loop cfg (Z.of_nat (List.length files)) 0 files []) in
  let out := output_archive cfg files in
  skipped_names events = map fst (filter (entry_fails cfg) files) /\
  List.length (progress_reports events) = List.length files /\
  List.length out = List.length (filter (entry_succeeds cfg) files) /\
  (List.length out <= List.length files)%nat /\
  ((exists entry, In entry files /\ entry_fails cfg entry = true) ->
   (List.length out < List.length files)%nat) /\
  (List.length (filter (entry_fails cfg) files) = 1%nat ->
   List.length out = (List.length files - 1)%nat) /\
  (forall archive,
      extract_files_from_archive archive = Ok files -> files <> [] ->
      batch_mode cfg (Some archive)
      = st_progress (Percent 0) :: events
          ++ [ st_status "Processing complete!";
               st_progress (Percent 100);
               st_success "Batch processing complete.";
               st_download_button "Download Processed ZIP" (ZipArchive out)
                 "processed_batch.zip" "application/zip" ]).
Proof.
  intros events out.
  destruct (batch_loop_spec cfg (Z.of_nat (List.length files)) files 0 [])
    as (Hs & Hp & Hl).
  fold events in Hs, Hp. change (snd _) with out in Hl. simpl in Hl.
  pose proof (filter_fails_succeeds cfg files) as Hsum.
  split; [exact Hs |]. split; [exact Hp |]. split; [exact Hl |].
  split; [lia |]. split; [| split].
  - intros (entry & Hin & Hf).
    pose proof (filter_nonempty _ _ _ Hin Hf). lia.
  - intros H1. lia.
  - intros archive. apply batch_mode_work_list.
Qed.

(** C2: what the handler does when the work list is empty.  After the
    warning it goes on as for any batch: it reports completion and
    success and offers the sealed, empty output archive for download. *)
Theorem C2_empty_work_list_falls_through (cfg : Config) (archive : UploadedFile) :
  extract_files_from_archive archive = Ok [] ->
  batch_mode cfg (Some archive)
  = [ st_progress (Percent 0);
      st_warning "No images found in the archive.";
      st_status "Processing complete!";
      st_progress (Percent 100);
      st_success "Batch processing complete.";
      st_download_button "Download Processed ZIP" (ZipArchive [])
        "processed_batch.zip" "application/zip" ].
Proof. intros H. unfold batch_mode. rewrite H. reflexivity. Qed.

End BatchModeFacts.

(* ================================================================== *)
(** * The properties on sample inputs *)

Module Checks.
Import Sample.

Example path_split_nested :
  PyStr.path_split "album/2024/cat.PNG" = ("album/2024"%string, "cat.PNG"%string).
Proof. reflexivity. Qed.

Example rsplit_keeps_inner_dots : PyStr.rsplit_dot_head "cat.v2.PNG" = "cat.v2"%string.
Proof. reflexivity. Qed.

Example int_truncates_toward_zero :
  PyNum.int_of_float 7.75 = Ok 7 /\ PyNum.int_of_float (-7.75) = Ok (-7).
Proof. split; reflexivity. Qed.

Example scaled_size_of_square_logo : logo_scaled_size (20, 20) (1, 1) = Ok (15, 15).
Proof. vm_compute. reflexivity. Qed.

(** Why the power is left open: on a 3x3 base a 5x27 watermark scales to
    1x5 when the C library returns 1.0 for [0.9999999999999999 ** 0.5], and
    to 0x0 when it returns the correctly rounded root. *)
Example scaled_size_depends_on_the_c_library :
  logo_scaled_size (LIBM := c_library_above) (3, 3) (5, 27) = Ok (1, 5) /\
  logo_scaled_size (LIBM := c_library) (3, 3) (5, 27) = Ok (0, 0).
Proof. split; vm_compute; reflexivity. Qed.

Example holiday_batch_members :
  map fst (output_archive (config "webp" None)
             [ ("a/beach.PNG"%string, photo);
               ("broken.jpg"%string, garbage);
               ("b/cat.webp"%string, cutout) ])
  = [ "a/beach.webp"%string; "b/cat.webp"%string ].
Proof. vm_compute. reflexivity. Qed.

Lemma C1_witness :
  exists output_buffer tried,
    resize_and_compress_traced cutout_img 10 "jpg" = Ok (output_buffer, tried) /\
    tried = firstn (List.length tried) quality_ladder /\
    (1 <= List.length tried <= 18)%nat.
Proof.
  destruct (C1_quality_ladder_search cutout_img Jpg 10 (or_introl eq_refl))
    as (buf & tried & Hrun & _ & Hprefix & Hlen & _).
  exists buf, tried. split; [exact Hrun |]. split; [exact Hprefix | exact Hlen].
Defined.

Lemma C2_witness :
  batch_mode (config "webp" None) (Some docs_zip)
  = [ st_progress (Percent 0);
      st_warning "No images found in the archive.";
      st_status "Processing complete!";
      st_progress (Percent 100);
      st_success "Batch processing complete.";
      st_download_button "Download Processed ZIP" (ZipArchive [])
        "processed_batch.zip" "application/zip" ].
Proof.
  apply C2_empty_work_list_falls_through. vm_compute. reflexivity.
Defined.

Lemma C3_witness :
  process_single_image photo 10 10 (Some garbage) 50 10 "webp"
  = process_single_image photo 10 10 None 50 10 "webp".
Proof.
  apply (C3_corrupt_watermark_is_ignored garbage). reflexivity.
Defined.

Lemma C5_witness :
  process_single_image photo 1 1 None 50 10 "jpg"
  = Ok (repeat Byte.x00 380, "jpg"%string) /\
  mime_type_of "jpg" = "image/jpeg"%string.
Proof.
  assert (H : process_single_image photo 1 1 None 50 10 (format_option Jpg)
              = Ok (repeat Byte.x00 380, "jpg"%string))
    by (vm_compute; reflexivity).
  split; [exact H |].
  exact (proj1 (proj2 (proj2 (proj2
           (C5_returned_format_is_the_selected_option _ _ _ _ _ _ Jpg _ _ H))))).
Defined.

(** The selected option was [jpg]; the string returned with the bytes is
    [jpg], not the canonical name in either letter case. *)
Lemma C5_counterexample :
  exists processed_buffer,
    process_single_image photo 1 1 None 50 10 (format_option Jpg)
    = Ok (processed_buffer, "jpg"%string) /\
    "jpg"%string <> canonical_name Jpg /\
    "jpg"%string <> PyStr.lower (canonical_name Jpg).
Proof.
  exists (repeat Byte.x00 380).
  split; [vm_compute; reflexivity |]. split; discriminate.
Defined.

Lemma ends_with_ci_sample (name ext : string) :
  PyStr.endswith (PyStr.lower name) ext = true -> PyStr.ends_with_ci name ext.
Proof. apply PyStrFacts.endswith_lower_iff. Qed.

Lemma not_ends_with_ci_sample (name ext : string) :
  PyStr.endswith (PyStr.lower name) ext = false -> ~ PyStr.ends_with_ci name ext.
Proof.
  intros H C. apply PyStrFacts.endswith_lower_iff in C. congruence.
Qed.


Lemma C7_witness :
  exists normalized,
    normalized_buffer photo 10 10 = Ok normalized /\
    size normalized = (10, 10) /\
    mode_of normalized = RGBA.
Proof.
  destruct (C7_normalized_geometry_and_mode photo 10 10 photo_img)
    as (n & Hn & Hs & Hm & _).
  - reflexivity.
  - lia.
  - lia.
  - exists n. split; [exact Hn |]. split; [exact Hs | exact Hm].
Defined.



Lemma C9_witness :
  mode_of (encoder_image "JPEG" cutout_img) = RGB /\
  exists output_buffer tried,
    resize_and_compress_traced cutout_img 10 "jpg" = Ok (output_buffer, tried) /\
    output_buffer = encode "JPEG" (last tried 0) (convert RGB cutout_img).
Proof.
  destruct (C9_alpha_flattened_for_jpeg cutout_img 10 "jpg" eq_refl eq_refl)
    as (_ & Hmode & _ & _ & (buf & tried & Hrun & _ & Hout) & _).
  split; [exact Hmode |]. exists buf, tried. split; [exact Hrun | exact Hout].
Defined.

Lemma C10_witness : extract_files_from_archive backup_tar = Ok [].
Proof.
  apply C10_unrecognized_suffix_yields_nothing.
  - apply not_ends_with_ci_sample. reflexivity.
  - apply not_ends_with_ci_sample. reflexivity.
Defined.

End Checks.

(* ================================================================== *)
(** * Further properties *)

(** ** Names and paths *)

Module PathFacts.
Import PyStr.

Lemma ascii_eqb_sym (a b : ascii) : Ascii.eqb a b = Ascii.eqb b a.
Proof.
destruct (Ascii.eqb a b) eqn:E.
- apply Ascii.eqb_eq in E. subst. symmetry. apply Ascii.eqb_refl.
- symmetry. apply Ascii.eqb_neq. apply Ascii.eqb_neq in E. congruence.
Qed.

Lemma contains_app (c : ascii) (a b : string) :
  contains c (a ++ b) = contains c a || contains c b.
Proof.
induction a as [| d a IH]; simpl; [reflexivity |].
rewrite IH, orb_assoc. reflexivity.
Qed.

Lemma contains_dot_suffix (a ext : string) :
  contains "."%char (a ++ "." ++ ext) = true.
Proof.
rewrite contains_app. simpl. apply orb_true_r.
Qed.

Lemma contains_slash_suffix (a b : string) :
  contains "/"%char (a ++ "/" ++ b) = true.
Proof.
rewrite contains_app. simpl. apply orb_true_r.
Qed.

Lemma rsplit_dot_head_app (stem ext : string) :
  contains "."%char ext = false ->
  rsplit_dot_head (stem ++ "." ++ ext) = stem.
Proof.
intros Hext. induction stem as [| c stem IH].
- simpl. rewrite Hext. reflexivity.
- change (String c stem ++ "." ++ ext)%string
    with (String c (stem ++ "." ++ ext)).
  cbn [rsplit_dot_head]. rewrite contains_dot_suffix, IH. reflexivity.
Qed.

Lemma rsplit_dot_head_no_dot (s : string) :
  contains "."%char s = false -> rsplit_dot_head s = s.
Proof.
destruct s as [| c s]; [reflexivity |]. cbn [contains rsplit_dot_head].
intros H. apply orb_false_iff in H. destruct H as [Hc Hs].
rewrite Hs, (ascii_eqb_sym c "."), Hc. reflexivity.
Qed.

Lemma cut_after_last_slash_app (dir base : string) :
  contains "/"%char base = false ->
  cut_after_last_slash (dir ++ "/" ++ base) = ((dir ++ "/")%string, base).
Proof.
intros Hbase. induction dir as [| c dir IH].
- simpl. rewrite Hbase. reflexivity.
- change (String c dir ++ "/" ++ base)%string
    with (String c (dir ++ "/" ++ base)).
  cbn [cut_after_last_slash]. rewrite contains_slash_suffix, IH. reflexivity.
Qed.

Lemma cut_after_last_slash_no_slash (p : string) :
  contains "/"%char p = false -> cut_after_last_slash p = (EmptyString, p).
Proof.
destruct p as [| c p]; [reflexivity |]. cbn [contains cut_after_last_slash].
intros H. apply orb_false_iff in H. destruct H as [Hc Hp].
rewrite Hp, (ascii_eqb_sym c "/"), Hc. reflexivity.
Qed.

Lemma ends_in_cons (c d : ascii) (s : string) :
  s <> EmptyString -> ends_in c (String d s) = ends_in c s.
Proof. destruct s; [congruence | reflexivity]. Qed.

Lemma ends_in_app (c : ascii) (a b : string) :
  b <> EmptyString -> ends_in c (a ++ b) = ends_in c b.
Proof.
intros Hb. induction a as [| d a IH]; [reflexivity |].
change (String d a ++ b)%string with (String d (a ++ b)).
rewrite ends_in_cons; [exact IH |]. destruct a; [exact Hb | discriminate].
Qed.

Lemma endswith_slash_ends_in (s : string) :
  endswith s "/" = ends_in "/"%char s.
Proof.
destruct (endswith s "/") eqn:E.
- apply PyStrFacts.endswith_iff in E. destruct E as [p ->].
  rewrite ends_in_app by discriminate. reflexivity.
- symmetry. induction s as [| c s IH]; [reflexivity |].
  cbn [endswith] in E.
  destruct (String.eqb (String c s) "/") eqn:Q; [discriminate |].
  destruct s as [| d s'].
  + cbn [ends_in]. destruct (Ascii.eqb "/" c) eqn:A; [| reflexivity].
    apply Ascii.eqb_eq in A. subst c. vm_compute in Q. discriminate.
  + rewrite ends_in_cons by discriminate. apply IH, E.
Qed.

Lemma rstrip_slash_app (dir : string) :
  dir <> EmptyString -> ends_in "/"%char dir = false ->
  rstrip_slash (dir ++ "/") = dir.
Proof.
induction dir as [| c dir IH]; [congruence |]. intros _ Hend.
change (String c dir ++ "/")%string with (String c (dir ++ "/")).
cbn [rstrip_slash]. destruct dir as [| d dir'].
- cbn [append rstrip_slash ends_in] in *.
  rewrite (ascii_eqb_sym c "/"), Hend. reflexivity.
- rewrite IH; [reflexivity | discriminate |].
  rewrite ends_in_cons in Hend by discriminate. exact Hend.
Qed.

Lemma all_slashes_ends_in (s : string) :
  s <> EmptyString -> all_slashes s = true -> ends_in "/"%char s = true.
Proof.
induction s as [| c s IH]; [congruence |]. intros _ H. cbn [all_slashes] in H.
apply andb_true_iff in H. destruct H as [Hc Hs]. destruct s as [| d s'].
- cbn [ends_in]. rewrite (ascii_eqb_sym "/" c). exact Hc.
- rewrite ends_in_cons by discriminate. apply IH; [discriminate | exact Hs].
Qed.

Lemma all_slashes_app (a b : string) :
  all_slashes (a ++ b) = all_slashes a && all_slashes b.
Proof.
induction a as [| c a IH]; simpl; [reflexivity |].
rewrite IH, andb_assoc. reflexivity.
Qed.

Lemma path_split_dir_base (dir base : string) :
  dir <> EmptyString -> ends_in "/"%char dir = false ->
  contains "/"%char base = false ->
  path_split (dir ++ "/" ++ base) = (dir, base).
Proof.
intros Hne Hend Hbase. unfold path_split.
rewrite (cut_after_last_slash_app _ _ Hbase).
assert (Hall : all_slashes (dir ++ "/") = false).
{ rewrite all_slashes_app. destruct (all_slashes dir) eqn:A; [| reflexivity].
  rewrite (all_slashes_ends_in dir Hne A) in Hend. discriminate. }
assert (Hnonempty : String.eqb (dir ++ "/") EmptyString = false)
  by (destruct dir; reflexivity).
rewrite Hall, Hnonempty. cbn [negb andb].
rewrite (rstrip_slash_app dir Hne Hend). reflexivity.
Qed.

Lemma path_split_base_only (base : string) :
  contains "/"%char base = false -> path_split base = (EmptyString, base).
Proof.
intros H. unfold path_split. rewrite (cut_after_last_slash_no_slash _ H).
reflexivity.
Qed.

Lemma path_join_nested (dir name : string) :
  dir <> EmptyString -> ends_in "/"%char dir = false ->
  contains "/"%char name = false ->
  path_join dir name = (dir ++ "/" ++ name)%string.
Proof.
intros Hne Hend Hname. unfold path_join.
rewrite endswith_slash_ends_in, Hend.
assert (Hnonempty : String.eqb dir EmptyString = false)
  by (destruct dir; [congruence | reflexivity]).
rewrite Hnonempty. cbn [orb].
destruct name as [| d name]; [reflexivity |].
cbn [contains] in Hname. apply orb_false_iff in Hname. destruct Hname as [Hd _].
destruct d as [[] [] [] [] [] [] [] []]; try reflexivity. discriminate.
Qed.

Lemma path_join_flat (name : string) : path_join EmptyString name = name.
Proof.
unfold path_join. destruct name as [| d name]; [reflexivity |].
destruct d as [[] [] [] [] [] [] [] []]; reflexivity.
Qed.

End PathFacts.

(** X1: an entry [dir/stem.ext] is written as [dir/stem.fmt]: the
    directory part is kept, whatever its depth, only the last extension is
    replaced, and dots inside the stem stay. *)
Theorem output_name_keeps_directory (dir stem ext final_fmt : string) :
  dir <> EmptyString -> ends_in "/"%char dir = false ->
  PyStr.contains "/"%char stem = false ->
  PyStr.contains "/"%char ext = false ->
  PyStr.contains "."%char ext = false ->
  PyStr.contains "/"%char final_fmt = false ->
  output_member_name (dir ++ "/" ++ stem ++ "." ++ ext) final_fmt
  = (dir ++ "/" ++ stem ++ "." ++ final_fmt)%string.
Proof.
intros Hne Hend Hstem Hext Hdot Hfmt. unfold output_member_name.
rewrite PathFacts.path_split_dir_base; auto.
- rewrite PathFacts.rsplit_dot_head_app by exact Hdot.
  apply PathFacts.path_join_nested; auto.
  rewrite PathFacts.contains_app, Hstem. simpl. exact Hfmt.
- rewrite PathFacts.contains_app, Hstem. simpl. exact Hext.
Qed.

(** X2: an entry at the top of the archive is written at the top: [stem.ext]
    becomes [stem.fmt], and a name with no dot at all gets the new extension
    appended. *)
Theorem output_name_at_top_level (stem ext base final_fmt : string) :
  (PyStr.contains "/"%char stem = false ->
   PyStr.contains "/"%char ext = false ->
   PyStr.contains "."%char ext = false ->
   output_member_name (stem ++ "." ++ ext) final_fmt
   = (stem ++ "." ++ final_fmt)%string) /\
  (PyStr.contains "/"%char base = false ->
   PyStr.contains "."%char base = false ->
   output_member_name base final_fmt = (base ++ "." ++ final_fmt)%string).
Proof.
split.
- intros Hstem Hext Hdot. unfold output_member_name.
  rewrite PathFacts.path_split_base_only.
  + rewrite PathFacts.rsplit_dot_head_app by exact Hdot.
    apply PathFacts.path_join_flat.
  + rewrite PathFacts.contains_app, Hstem. simpl. exact Hext.
- intros Hslash Hdot. unfold output_member_name.
  rewrite PathFacts.path_split_base_only by exact Hslash.
  rewrite PathFacts.rsplit_dot_head_no_dot by exact Hdot.
  apply PathFacts.path_join_flat.
Qed.

(** X3: two entries that differ only in their extension get the same member
    name: the old extension does not survive in the output. *)
Theorem output_names_collide (dir stem ext1 ext2 final_fmt : string) :
  PyStr.contains "/"%char stem = false ->
  PyStr.contains "/"%char ext1 = false -> PyStr.contains "."%char ext1 = false ->
  PyStr.contains "/"%char ext2 = false -> PyStr.contains "."%char ext2 = false ->
  output_member_name (dir ++ "/" ++ stem ++ "." ++ ext1) final_fmt
  = output_member_name (dir ++ "/" ++ stem ++ "." ++ ext2) final_fmt.
Proof.
intros Hstem H1 D1 H2 D2. unfold output_member_name, PyStr.path_split.
rewrite !PathFacts.cut_after_last_slash_app
  by (rewrite PathFacts.contains_app, Hstem; simpl; assumption).
destruct (negb _ && negb _);
  rewrite !PathFacts.rsplit_dot_head_app by assumption; reflexivity.
Qed.

(** ** Letter case *)

Module CaseFacts.
Import PyStr.

Lemma lower_upper_ascii (c : ascii) : lower_ascii (upper_ascii c) = lower_ascii c.
Proof. destruct c as [[] [] [] [] [] [] [] []]; reflexivity. Qed.

Lemma upper_lower_ascii (c : ascii) : upper_ascii (lower_ascii c) = upper_ascii c.
Proof. destruct c as [[] [] [] [] [] [] [] []]; reflexivity. Qed.

Lemma lower_lower_ascii (c : ascii) : lower_ascii (lower_ascii c) = lower_ascii c.
Proof. destruct c as [[] [] [] [] [] [] [] []]; reflexivity. Qed.

Lemma lower_upper (s : string) : lower (upper s) = lower s.
Proof.
induction s as [| c s IH]; simpl; [reflexivity |].
rewrite lower_upper_ascii, IH. reflexivity.
Qed.

Lemma upper_lower (s : string) : upper (lower s) = upper s.
Proof.
induction s as [| c s IH]; simpl; [reflexivity |].
rewrite upper_lower_ascii, IH. reflexivity.
Qed.

Lemma lower_lower (s : string) : lower (lower s) = lower s.
Proof.
induction s as [| c s IH]; simpl; [reflexivity |].
rewrite lower_lower_ascii, IH. reflexivity.
Qed.

End CaseFacts.

(** ** The extractor, continued *)

(** X4: the image filter does not look at letter case: a name, its upper
    case and its lower case are all kept or all dropped. *)
Theorem image_filter_ignores_case (name : string) :
  is_image_name (PyStr.upper name) = is_image_name name /\
  is_image_name (PyStr.lower name) = is_image_name name.
Proof.
unfold is_image_name.
rewrite CaseFacts.lower_upper, CaseFacts.lower_lower. auto.
Qed.

Lemma endswith_last_char (s ext : string) (c : ascii) :
  ext <> EmptyString -> ends_in c s = true -> ends_in c ext = false ->
  PyStr.endswith s ext = false.
Proof.
intros Hne Hs Hext. destruct (PyStr.endswith s ext) eqn:E; [| reflexivity].
apply PyStrFacts.endswith_iff in E. destruct E as [p ->].
rewrite PathFacts.ends_in_app in Hs by exact Hne. congruence.
Qed.

Lemma lower_ends_in_slash (s : string) :
  ends_in "/"%char (PyStr.lower s) = ends_in "/"%char s.
Proof.
induction s as [| c s IH]; [reflexivity |]. destruct s as [| d s'].
- cbn [PyStr.lower ends_in].
  destruct c as [[] [] [] [] [] [] [] []]; reflexivity.
- change (PyStr.lower (String c (String d s')))
    with (String (PyStr.lower_ascii c) (PyStr.lower (String d s'))).
  rewrite (PathFacts.ends_in_cons _ (PyStr.lower_ascii c)) by discriminate.
  rewrite (PathFacts.ends_in_cons _ c (String d s')) by discriminate.
  exact IH.
Qed.

(** X5: a directory entry (zip lists directories with a trailing slash) is
    never yielded, even when the directory's name looks like an image name. *)
Theorem directory_entries_are_not_images (name : string) :
  ends_in "/"%char name = true -> is_image_name name = false.
Proof.
intros H. unfold is_image_name, PyStr.endswith_any, image_extensions.
rewrite <- lower_ends_in_slash in H. cbn [existsb].
rewrite !(endswith_last_char _ _ "/"%char) by (discriminate || assumption || reflexivity).
reflexivity.
Qed.

Lemma zip_yield_is_ok (z : ZipFile) (names : list string) :
  is_ok (zip_yield z names)
  = forallb (fun name => negb (is_image_name name) || is_ok (zip_read z name)) names.
Proof.
induction names as [| name rest IH]; [reflexivity |]. cbn [zip_yield forallb].
destruct (is_image_name name); cbn [negb orb].
- destruct (zip_read z name) as [data |]; cbn [bind is_ok andb]; [| reflexivity].
  rewrite <- IH. destruct (zip_yield z rest); reflexivity.
- exact IH.
Qed.

Section ExtractorMore.
Context {AR : Containers}.

(** X6: the container kind is chosen from the declared name without regard
    to letter case: an archive extracts the same under its name, the name in
    upper case and the name in lower case. *)
Theorem container_kind_ignores_case (name : string) (data : bytes) :
  extract_files_from_archive (mkUpload (PyStr.upper name) data)
  = extract_files_from_archive (mkUpload name data) /\
  extract_files_from_archive (mkUpload (PyStr.lower name) data)
  = extract_files_from_archive (mkUpload name data).
Proof.
unfold extract_files_from_archive. cbn [upload_name upload_bytes].
rewrite CaseFacts.lower_upper, CaseFacts.lower_lower. auto.
Qed.

(** X7: extraction from a zip that opens succeeds exactly when every
    image-named member reads.  A member that is not image-named is never
    read, so it cannot make the extraction fail; one image-named member that
    does not read makes the whole extraction raise. *)
Theorem zip_extraction_succeeds_iff_images_read (uploaded_archive : UploadedFile)
    (z : ZipFile) :
  PyStr.ends_with_ci (upload_name uploaded_archive) ".zip" ->
  zipfile_open (upload_bytes uploaded_archive) = Ok z ->
  is_ok (extract_files_from_archive uploaded_archive)
  = forallb (fun name => negb (is_image_name name) || is_ok (zip_read z name))
      (namelist z).
Proof.
intros Hname Hopen. unfold extract_files_from_archive.
apply PyStrFacts.endswith_lower_iff in Hname. rewrite Hname, Hopen.
cbn [bind]. apply zip_yield_is_ok.
Qed.

End ExtractorMore.

(** ** The encoder, continued *)

Lemma first_fit_nonempty (fits : Z -> bool) (ladder : list Z) :
  ladder <> [] -> first_fit fits ladder <> [].
Proof.
destruct ladder as [| q rest]; [congruence |]. intros _. simpl.
destruct (fits q || (q <=? 10)); discriminate.
Qed.

Lemma first_fit_incl (fits : Z -> bool) (ladder : list Z) (q : Z) :
  In q (first_fit fits ladder) -> In q ladder.
Proof.
induction ladder as [| q0 rest IH]; simpl; [auto |].
destruct (fits q0 || (q0 <=? 10)); simpl; intuition.
Qed.

Lemma ladder_from_bound (k : nat) (q : Z) :
  In q (ladder_from k) -> 10 <= q <= 10 + 5 * Z.of_nat k.
Proof.
induction k as [| k IH]; cbn [ladder_from In].
- intros [<- | []]. lia.
- intros [<- | H]; [lia |]. specialize (IH H). lia.
Qed.

Lemma last_in {A : Type} (l : list A) (d : A) : l <> [] -> In (last l d) l.
Proof.
induction l as [| a l IH]; [congruence |]. intros _.
destruct l as [| b l']; [left; reflexivity |].
right. apply IH. discriminate.
Qed.

Lemma last_cons_nonempty {A : Type} (a : A) (l : list A) (d : A) :
  l <> [] -> last (a :: l) d = last l d.
Proof. destruct l; [congruence | reflexivity]. Qed.

(** A larger ceiling stops the search no later. *)
Lemma first_fit_prefix (fits1 fits2 : Z -> bool) (ladder : list Z) :
  (forall q, fits1 q = true -> fits2 q = true) ->
  first_fit fits2 ladder
  = firstn (List.length (first_fit fits2 ladder)) (first_fit fits1 ladder) /\
  (List.length (first_fit fits2 ladder) <= List.length (first_fit fits1 ladder))%nat.
Proof.
intros Hsub. induction ladder as [| q rest [IHp IHl]]; [split; reflexivity |].
cbn [first_fit].
destruct (fits2 q || (q <=? 10)) eqn:C2.
- destruct (fits1 q || (q <=? 10)); simpl; split; (reflexivity || lia).
- apply orb_false_iff in C2. destruct C2 as [F2 Q].
  assert (F1 : fits1 q = false).
  { destruct (fits1 q) eqn:F; [| reflexivity]. rewrite (Hsub q F) in F2. discriminate. }
  rewrite F1, Q. simpl. split; [f_equal; exact IHp | lia].
Qed.

Lemma first_fit_ladder_mono (fits1 fits2 : Z -> bool) (k : nat) :
  (forall q, fits1 q = true -> fits2 q = true) ->
  last (first_fit fits1 (ladder_from k)) 0 <= last (first_fit fits2 (ladder_from k)) 0.
Proof.
intros Hsub. induction k as [| k IH].
- simpl. rewrite !orb_true_r. simpl. lia.
- change (ladder_from (S k)) with ((10 + 5 * Z.of_nat (S k)) :: ladder_from k).
  set (q := 10 + 5 * Z.of_nat (S k)).
  assert (Hup : forall f x, In x (first_fit f (q :: ladder_from k)) -> x <= q).
  { intros f x Hx. apply first_fit_incl in Hx. destruct Hx as [<- | Hx]; [lia |].
    apply ladder_from_bound in Hx. unfold q. lia. }
  assert (Hne : ladder_from k <> []) by (destruct k; discriminate).
  destruct (fits2 q || (q <=? 10)) eqn:C2.
  + assert (H2 : first_fit fits2 (q :: ladder_from k) = [q])
      by (cbn [first_fit]; rewrite C2; reflexivity).
    rewrite H2. cbn [last]. apply Hup with (f := fits1).
    apply last_in, first_fit_nonempty. discriminate.
  + assert (C1 : fits1 q || (q <=? 10) = false).
    { apply orb_false_iff in C2. destruct C2 as [F2 Q]. rewrite Q.
      destruct (fits1 q) eqn:F; [| reflexivity].
      rewrite (Hsub q F) in F2. discriminate. }
    cbn [first_fit]. rewrite C1, C2.
    rewrite !last_cons_nonempty by (apply first_fit_nonempty, Hne). exact IH.
Qed.

(** When some quality of the ladder fits, the search ends on one that fits;
    when none does, it walks the whole ladder. *)
Lemma first_fit_finds (fits : Z -> bool) (k : nat) :
  (exists q, In q (ladder_from k) /\ fits q = true) ->
  fits (last (first_fit fits (ladder_from k)) 0) = true.
Proof.
induction k as [| k IH]; intros (q & Hin & Hq).
- destruct Hin as [<- | []]. cbn [ladder_from first_fit]. rewrite Hq.
  cbn [orb last]. exact Hq.
- change (ladder_from (S k)) with ((10 + 5 * Z.of_nat (S k)) :: ladder_from k) in *.
  cbn [first_fit].
  destruct (fits (10 + 5 * Z.of_nat (S k))) eqn:F; [exact F |].
  replace (10 + 5 * Z.of_nat (S k) <=? 10) with false by (symmetry; apply Z.leb_gt; lia).
  cbn [orb]. rewrite last_cons_nonempty
    by (apply first_fit_nonempty; destruct k; discriminate).
  apply IH. destruct Hin as [<- | Hin]; [congruence |]. exists q. auto.
Qed.

Lemma first_fit_none (fits : Z -> bool) (k : nat) :
  (forall q, In q (ladder_from k) -> fits q = false) ->
  first_fit fits (ladder_from k) = ladder_from k.
Proof.
induction k as [| k IH]; intros Hnone.
- simpl. rewrite orb_true_r. reflexivity.
- change (ladder_from (S k)) with ((10 + 5 * Z.of_nat (S k)) :: ladder_from k) in *.
  cbn [first_fit]. rewrite (Hnone _ (or_introl eq_refl)).
  replace (10 + 5 * Z.of_nat (S k) <=? 10) with false by (symmetry; apply Z.leb_gt; lia).
  cbn [orb]. rewrite IH; [reflexivity |]. intros q Hq. apply Hnone. right. exact Hq.
Qed.

Section EncoderMore.
Context {PIL : Pillow}.

(** The loop is the linear search. *)
Lemma compress_loop_first_fit (img : image) (fmt : string) (target_bytes : Z) :
  writable fmt (mode_of img) = true ->
  forall (k : nat) (tried : list Z),
    compress_loop img fmt target_bytes (10 + 5 * Z.of_nat k) tried
    = Ok (encode fmt
            (last (first_fit (fun q => tell (encode fmt q img) <=? target_bytes)
                     (ladder_from k)) 0) img,
          tried ++ first_fit (fun q => tell (encode fmt q img) <=? target_bytes)
                     (ladder_from k)).
Proof.
intros W k. induction k as [| k IH]; intros tried.
- rewrite compress_loop_step, (save_writable _ _ _ W). simpl.
  rewrite !orb_true_r. reflexivity.
- rewrite compress_loop_step, (save_writable _ _ _ W).
  change (ladder_from (S k)) with ((10 + 5 * Z.of_nat (S k)) :: ladder_from k).
  cbn [first_fit]. unfold tell at 1.
  change (Z.of_nat (List.length (encode fmt (10 + 5 * Z.of_nat (S k)) img)))
    with (tell (encode fmt (10 + 5 * Z.of_nat (S k)) img)).
  destruct ((tell (encode fmt (10 + 5 * Z.of_nat (S k)) img) <=? target_bytes)
            || (10 + 5 * Z.of_nat (S k) <=? 10)); [reflexivity |].
  replace (10 + 5 * Z.of_nat (S k) - 5) with (10 + 5 * Z.of_nat k) by lia.
  rewrite IH, <- app_assoc.
  rewrite last_cons_nonempty
    by (apply first_fit_nonempty; destruct k; discriminate).
  reflexivity.
Qed.

Lemma traced_first_fit (img : image) (target_size_kb : Z) (image_format : string) :
  writable (encoder_format image_format)
           (mode_of (encoder_image (encoder_format image_format) img)) = true ->
  resize_and_compress_traced img target_size_kb image_format
  = Ok (encode (encoder_format image_format)
          (last (first_fit
                   (fits_ceiling (encoder_format image_format)
                      (encoder_image (encoder_format image_format) img)
                      target_size_kb)
                   quality_ladder) 0)
          (encoder_image (encoder_format image_format) img),
        first_fit
          (fits_ceiling (encoder_format image_format)
             (encoder_image (encoder_format image_format) img) target_size_kb)
          quality_ladder).
Proof.
intros W. unfold resize_and_compress_traced.
exact (compress_loop_first_fit _ _ (target_size_kb * 1024) W 17 []).
Qed.

End EncoderMore.

Section EncoderProperties.
Context {PIL : Pillow}.

(** X8: whenever some quality of the ladder gives a serialization within
    the ceiling, the buffer the encoder returns is within the ceiling. *)
Theorem encoder_meets_ceiling_when_possible (img : image) (f : output_format)
    (target_size_kb : Z) (q : Z) :
  mode_of img = RGBA \/ mode_of img = RGB ->
  In q quality_ladder ->
  tell (encode (encoder_format (format_option f)) q
          (encoder_image (encoder_format (format_option f)) img))
  <= target_size_kb * 1024 ->
  exists output_buffer,
    resize_and_compress_to_buffer img target_size_kb (format_option f)
    = Ok output_buffer /\
    tell output_buffer <= target_size_kb * 1024.
Proof.
intros Hmode Hin Hq.
pose proof (traced_first_fit img target_size_kb (format_option f)
              (encoder_image_writable img f Hmode)) as Hrun.
unfold resize_and_compress_to_buffer. rewrite Hrun. cbn [bind].
eexists. split; [reflexivity |].
apply Z.leb_le.
apply (first_fit_finds
         (fits_ceiling (encoder_format (format_option f))
            (encoder_image (encoder_format (format_option f)) img) target_size_kb) 17).
exists q. split; [exact Hin |]. apply Z.leb_le. exact Hq.
Qed.

(** X9: when no quality of the ladder fits, the encoder saves eighteen
    times, once at each quality, and returns the serialization at quality
    10, which is over the ceiling. *)
Theorem encoder_exhausts_ladder_when_nothing_fits (img : image) (f : output_format)
    (target_size_kb : Z) :
  mode_of img = RGBA \/ mode_of img = RGB ->
  (forall q, In q quality_ladder ->
     target_size_kb * 1024
     < tell (encode (encoder_format (format_option f)) q
               (encoder_image (encoder_format (format_option f)) img))) ->
  resize_and_compress_traced img target_size_kb (format_option f)
  = Ok (encode (encoder_format (format_option f)) 10
          (encoder_image (encoder_format (format_option f)) img),
        quality_ladder) /\
  target_size_kb * 1024
  < tell (encode (encoder_format (format_option f)) 10
            (encoder_image (encoder_format (format_option f)) img)).
Proof.
intros Hmode Hnone. split.
- rewrite (traced_first_fit img target_size_kb (format_option f)
             (encoder_image_writable img f Hmode)).
  change quality_ladder with (ladder_from 17).
  rewrite first_fit_none; [reflexivity |].
  intros q Hq. apply Z.leb_gt, Hnone, Hq.
- apply Hnone. unfold quality_ladder. simpl. tauto.
Qed.

(** X10: a larger ceiling never costs quality: with the ceiling raised, the
    encoder saves at a prefix of the qualities it saved at before, and the
    quality of the buffer it returns is at least what it was. *)
Theorem encoder_quality_grows_with_ceiling (img : image) (f : output_format)
    (small_kb large_kb : Z) :
  mode_of img = RGBA \/ mode_of img = RGB ->
  small_kb <= large_kb ->
  exists buffer_small tried_small buffer_large tried_large,
    resize_and_compress_traced img small_kb (format_option f)
    = Ok (buffer_small, tried_small) /\
    resize_and_compress_traced img large_kb (format_option f)
    = Ok (buffer_large, tried_large) /\
    tried_large = firstn (List.length tried_large) tried_small /\
    (List.length tried_large <= List.length tried_small)%nat /\
    last tried_small 0 <= last tried_large 0.
Proof.
intros Hmode Hle.
pose proof (encoder_image_writable img f Hmode) as W.
rewrite (traced_first_fit img small_kb (format_option f) W).
rewrite (traced_first_fit img large_kb (format_option f) W).
set (fmt := encoder_format (format_option f)).
set (serialized := encoder_image fmt img).
assert (Hsub : forall q, fits_ceiling fmt serialized small_kb q = true ->
                         fits_ceiling fmt serialized large_kb q = true).
{ unfold fits_ceiling. intros q H. apply Z.leb_le in H. apply Z.leb_le. lia. }
destruct (first_fit_prefix _ _ quality_ladder Hsub) as [Hp Hl].
do 4 eexists. split; [reflexivity |]. split; [reflexivity |].
split; [exact Hp |]. split; [exact Hl |].
exact (first_fit_ladder_mono _ _ 17 Hsub).
Qed.

(** X11: the encoder does not look at the letter case of the format name,
    and takes [jpeg] for [jpg]. *)
Theorem encoder_format_ignores_case (img : image) (target_size_kb : Z)
    (image_format : string) :
  resize_and_compress_to_buffer img target_size_kb (PyStr.upper image_format)
  = resize_and_compress_to_buffer img target_size_kb image_format /\
  resize_and_compress_to_buffer img target_size_kb (PyStr.lower image_format)
  = resize_and_compress_to_buffer img target_size_kb image_format /\
  resize_and_compress_to_buffer img target_size_kb "jpeg"
  = resize_and_compress_to_buffer img target_size_kb "jpg".
Proof.
assert (Hup : encoder_format (PyStr.upper image_format) = encoder_format image_format).
{ unfold encoder_format.
  rewrite <- (CaseFacts.upper_lower (PyStr.upper image_format)).
  rewrite CaseFacts.lower_upper, CaseFacts.upper_lower. reflexivity. }
assert (Hlow : encoder_format (PyStr.lower image_format) = encoder_format image_format).
{ unfold encoder_format. rewrite CaseFacts.upper_lower. reflexivity. }
unfold resize_and_compress_to_buffer, resize_and_compress_traced.
rewrite Hup, Hlow. auto.
Qed.

(** X12: only RGBA is converted for JPEG.  A buffer in mode LA or P bound
    for JPEG is saved as it is, the first save raises, and the encoder
    raises with it. *)
Theorem encoder_raises_on_unflattened_modes (img : image) (target_size_kb : Z)
    (image_format : string) :
  encoder_format image_format = "JPEG"%string ->
  mode_of img = LA \/ mode_of img = P ->
  encoder_image "JPEG" img = img /\
  resize_and_compress_to_buffer img target_size_kb image_format = Raise OSError.
Proof.
intros Hfmt Hmode.
assert (Hsame : encoder_image "JPEG" img = img).
{ unfold encoder_image. destruct Hmode as [-> | ->]; reflexivity. }
split; [exact Hsame |].
unfold resize_and_compress_to_buffer, resize_and_compress_traced.
rewrite Hfmt, Hsame, compress_loop_step. unfold save.
destruct Hmode as [-> | ->]; reflexivity.
Qed.

(** X13: for WEBP and PNG the buffer is saved as it was given, alpha
    channel included: the bytes returned are a serialization, at a quality
    of the ladder, of the very buffer passed in. *)
Theorem encoder_keeps_alpha_for_webp_and_png (img : image) (f : output_format)
    (target_size_kb : Z) :
  f = Webp \/ f = Png ->
  mode_of img = RGBA \/ mode_of img = RGB ->
  exists quality,
    In quality quality_ladder /\
    resize_and_compress_to_buffer img target_size_kb (format_option f)
    = Ok (encode (canonical_name f) quality img).
Proof.
intros Hf Hmode.
assert (Hsame : encoder_image (encoder_format (format_option f)) img = img)
  by (destruct Hf as [-> | ->]; reflexivity).
assert (Hname : encoder_format (format_option f) = canonical_name f)
  by (destruct f; reflexivity).
pose proof (traced_first_fit img target_size_kb (format_option f)
              (encoder_image_writable img f Hmode)) as Hrun.
unfold resize_and_compress_to_buffer. rewrite Hrun. cbn [bind].
rewrite Hsame, Hname. eexists. split; [| reflexivity].
apply (first_fit_incl (fits_ceiling (canonical_name f) img target_size_kb)).
apply last_in, first_fit_nonempty. discriminate.
Qed.

End EncoderProperties.

(** ** The pipeline and the watermark, continued *)

Section PipelineMore.
Context {PIL : Pillow} {LIBM : CLibrary}.

(** When the pipeline returns and when it raises. *)
Lemma pipeline_outcome (file_bytes : bytes) (width height : Z)
    (logo_bytes : option bytes) (opacity target_size_kb : Z) (f : output_format) :
  is_ok (process_single_image file_bytes width height logo_bytes opacity
           target_size_kb (format_option f))
  = is_ok (Image_open file_bytes) && (1 <=? width) && (1 <=? height) /\
  (forall e, Image_open file_bytes = Raise e ->
     process_single_image file_bytes width height logo_bytes opacity
       target_size_kb (format_option f) = Raise e) /\
  (is_ok (Image_open file_bytes) = true -> width < 1 \/ height < 1 ->
     process_single_image file_bytes width height logo_bytes opacity
       target_size_kb (format_option f) = Raise ValueError).
Proof.
assert (Hsize : is_ok (Image_open file_bytes) = true -> width < 1 \/ height < 1 ->
          process_single_image file_bytes width height logo_bytes opacity
            target_size_kb (format_option f) = Raise ValueError).
{ intros Hok Hsize. unfold process_single_image.
  destruct (Image_open file_bytes) as [decoded |]; [| discriminate].
  cbn [bind]. unfold resize.
  replace ((width <? 1) || (height <? 1)) with true; [reflexivity |].
  symmetry. apply orb_true_iff. destruct Hsize as [H | H]; [left | right];
    apply Z.ltb_lt; exact H. }
split; [| split; [| exact Hsize]].
- destruct (Image_open file_bytes) as [decoded |] eqn:Hopen.
  + cbn [is_ok andb].
    destruct (Z_le_gt_dec 1 width) as [Hw | Hw];
      [destruct (Z_le_gt_dec 1 height) as [Hh | Hh] |].
    * rewrite (proj2 (Z.leb_le 1 width) Hw), (proj2 (Z.leb_le 1 height) Hh).
      destruct (encoder_input_ok file_bytes width height decoded logo_bytes opacity
                  Hopen Hw Hh) as (img & Himg & _ & Hm).
      destruct (traced_run img target_size_kb (format_option f))
        as (buf & tried & _ & Hb & _).
      { apply encoder_image_writable. left. exact Hm. }
      rewrite process_single_image_stages, Himg, lower_format_option. cbn [bind].
      rewrite Hb. reflexivity.
    * rewrite (proj2 (Z.leb_gt 1 height)) by lia. rewrite andb_false_r.
      rewrite Hsize; [reflexivity | reflexivity | lia].
    * rewrite (proj2 (Z.leb_gt 1 width)) by lia. cbn [andb].
      rewrite Hsize; [reflexivity | reflexivity | lia].
  + unfold process_single_image. rewrite Hopen. reflexivity.
- intros e Hopen. unfold process_single_image. rewrite Hopen. reflexivity.
Qed.

(** X14: with one of the three selectable formats, the pipeline raises only
    for an input that does not decode (the decoder's exception) or for a
    target width or height below 1 ([ValueError]); the watermark, the
    opacity and the size ceiling never make it raise. *)
Theorem pipeline_fails_only_on_input_or_size (file_bytes : bytes) (width height : Z)
    (logo_bytes : option bytes) (opacity target_size_kb : Z) (f : output_format) :
  is_ok (process_single_image file_bytes width height logo_bytes opacity
           target_size_kb (format_option f))
  = is_ok (Image_open file_bytes) && (1 <=? width) && (1 <=? height) /\
  (forall e, Image_open file_bytes = Raise e ->
     process_single_image file_bytes width height logo_bytes opacity
       target_size_kb (format_option f) = Raise e) /\
  (is_ok (Image_open file_bytes) = true -> width < 1 \/ height < 1 ->
     process_single_image file_bytes width height logo_bytes opacity
       target_size_kb (format_option f) = Raise ValueError).
Proof. apply pipeline_outcome. Qed.

(** X15: watermarking never changes the buffer's size or mode, whatever the
    watermark bytes and the opacity, and without a watermark the buffer is
    returned as it is. *)
Theorem watermark_keeps_size_and_mode (base_img : image)
    (logo_bytes : option bytes) (opacity : Z) :
  size (apply_logo base_img logo_bytes opacity) = size base_img /\
  mode_of (apply_logo base_img logo_bytes opacity) = mode_of base_img /\
  apply_logo base_img None opacity = base_img.
Proof.
destruct (apply_logo_size_mode base_img logo_bytes opacity) as [Hs Hm].
split; [exact Hs |]. split; [exact Hm | reflexivity].
Qed.

(** X16: a watermark that decodes but whose scaled size cannot be computed,
    or has a side below 1, is dropped: the base buffer comes back as it
    was. *)
Theorem degenerate_watermark_is_dropped (base_img : image) (logo_bytes : bytes)
    (opacity : Z) (logo_img : image) :
  Image_open logo_bytes = Ok logo_img ->
  match logo_scaled_size (size base_img) (size logo_img) with
  | Ok (w, h) => w < 1 \/ h < 1
  | Raise _ => True
  end ->
  apply_logo base_img (Some logo_bytes) opacity = base_img.
Proof.
intros Hopen Hdeg. unfold apply_logo, watermark. rewrite Hopen. cbn [bind].
change (size (convert RGBA logo_img)) with (size logo_img).
destruct (logo_scaled_size (size base_img) (size logo_img)) as [[w h] |];
  [| reflexivity].
cbn [bind]. unfold resize.
replace ((w <? 1) || (h <? 1)) with true; [reflexivity |].
symmetry. apply orb_true_iff. destruct Hdeg as [H | H]; [left | right];
  apply Z.ltb_lt; exact H.
Qed.

End PipelineMore.

(** X17: for every position of the opacity slider the opacity fraction is
    defined and lies between 0 and 1; it is 0 at 0 and 1 at 100, and a
    higher position never gives a lower fraction. *)
Theorem opacity_fraction_on_slider (opacity other : Z) :
  0 <= opacity <= 100 -> 0 <= other <= 100 ->
  exists v w,
    opacity_value opacity = Ok v /\ opacity_value other = Ok w /\
    (0 <=? v)%float = true /\ (v <=? 1)%float = true /\
    (opacity = 0 -> v = 0%float) /\ (opacity = 100 -> v = 1%float) /\
    (opacity <= other -> (v <=? w)%float = true).
Proof.
intros Ho Hw.
assert (Hall : forallb (fun a =>
          forallb (fun b =>
            match opacity_value (Z.of_nat a), opacity_value (Z.of_nat b) with
            | Ok v, Ok w =>
                (0 <=? v)%float && (v <=? 1)%float
                && (negb (a <=? b)%nat || (v <=? w)%float)
            | _, _ => false
            end) (seq 0 101)) (seq 0 101) = true)
  by (vm_compute; reflexivity).
assert (H0 : opacity_value 0 = Ok 0%float) by (vm_compute; reflexivity).
assert (H100 : opacity_value 100 = Ok 1%float) by (vm_compute; reflexivity).
rewrite forallb_forall in Hall.
specialize (Hall (Z.to_nat opacity) ltac:(apply in_seq; lia)).
rewrite forallb_forall in Hall.
specialize (Hall (Z.to_nat other) ltac:(apply in_seq; lia)).
rewrite !Z2Nat.id in Hall by lia.
destruct (opacity_value opacity) as [v |] eqn:Ev; [| discriminate].
destruct (opacity_value other) as [w |] eqn:Ew; [| discriminate].
apply andb_true_iff in Hall. destruct Hall as [Hall Hmono].
apply andb_true_iff in Hall. destruct Hall as [Hlo Hhi].
exists v, w. split; [reflexivity |]. split; [reflexivity |].
split; [exact Hlo |]. split; [exact Hhi |]. split; [| split].
- intros ->. congruence.
- intros ->. congruence.
- intros Hle. apply orb_true_iff in Hmono. destruct Hmono as [Hn | Hm]; [| exact Hm].
  apply negb_true_iff, Nat.leb_gt in Hn. lia.
Qed.

(** ** The handlers, continued *)

Lemma status_messages_app (a b : list ui_event) :
  status_messages (a ++ b) = (status_messages a ++ status_messages b)%list.
Proof.
induction a as [| e a IH]; [reflexivity |].
destruct e; simpl; rewrite IH; reflexivity.
Qed.

Section HandlersMore.
Context {PIL : Pillow} {LIBM : CLibrary}.

Lemma returned_format_is_lowered (file_bytes : bytes) (width height : Z)
    (logo_bytes : option bytes) (opacity target_size_kb : Z)
    (image_format : string) (processed_buffer : bytes) (final_fmt : string) :
  process_single_image file_bytes width height logo_bytes opacity target_size_kb
    image_format = Ok (processed_buffer, final_fmt) ->
  final_fmt = PyStr.lower image_format.
Proof.
rewrite process_single_image_stages. intros H.
destruct (encoder_input _ _ _ _ _); [| discriminate]. cbn [bind] in H.
destruct (resize_and_compress_to_buffer _ _ _); [| discriminate].
cbn [bind] in H. congruence.
Qed.

Lemma batch_loop_members (cfg : Config) (total_files : Z)
    (files : list (string * bytes)) :
  forall (i : Z) (z_out : list (string * bytes)),
    snd (batch_loop cfg total_files i files z_out)
    = (z_out ++ flat_map (member_of cfg) files)%list.
Proof.
induction files as [| [filename file_bytes] rest IH]; intros i z_out.
- simpl. rewrite app_nil_r. reflexivity.
- cbn [batch_loop flat_map]. unfold member_of at 1. cbn [fst snd].
  unfold output_member_name.
  destruct (process_single_image _ _ _ _ _ _ _) as [[buf fmt] |].
  + destruct (PyStr.path_split filename) as [original_path original_name].
    match goal with
    | |- context [batch_loop cfg total_files (i + 1) rest ?z] =>
        specialize (IH (i + 1) z);
        destruct (batch_loop cfg total_files (i + 1) rest z) as [later z_final]
    end.
    cbn [snd] in *. rewrite IH, <- app_assoc. reflexivity.
  + specialize (IH (i + 1) z_out).
    destruct (batch_loop cfg total_files (i + 1) rest z_out) as [later z_final].
    cbn [snd] in *. exact IH.
Qed.

Lemma batch_loop_reports (cfg : Config) (total_files : Z)
    (files : list (string * bytes)) :
  forall (i : Z) (z_out : list (string * bytes)),
    progress_reports (fst (batch_loop cfg total_files i files z_out))
    = map (fun k => Fraction (i + Z.of_nat k + 1) total_files)
          (seq 0 (List.length files)) /\
    status_messages (fst (batch_loop cfg total_files i files z_out))
    = map (fun entry => ("Processing: " ++ fst entry)%string) files.
Proof.
induction files as [| [filename file_bytes] rest IH]; intros i z_out.
- split; reflexivity.
- cbn [batch_loop].
  destruct (process_single_image _ _ _ _ _ _ _) as [[buf fmt] |].
  + destruct (PyStr.path_split filename) as [original_path original_name].
    match goal with
    | |- context [batch_loop cfg total_files (i + 1) rest ?z] =>
        destruct (IH (i + 1) z) as [Hp Hs];
        destruct (batch_loop cfg total_files (i + 1) rest z) as [later z_final]
    end.
    cbn [fst] in *.
    cbn [progress_reports status_messages app List.length seq map fst].
    rewrite Hp, Hs, <- seq_shift, map_map. split; [| reflexivity].
    f_equal; [f_equal; lia |]. apply map_ext. intros k. f_equal. lia.
  + destruct (IH (i + 1) z_out) as [Hp Hs].
    destruct (batch_loop cfg total_files (i + 1) rest z_out) as [later z_final].
    cbn [fst] in *.
    cbn [progress_reports status_messages app List.length seq map fst].
    rewrite Hp, Hs, <- seq_shift, map_map. split; [| reflexivity].
    f_equal; [f_equal; lia |]. apply map_ext. intros k. f_equal. lia.
Qed.

(** X18: the output archive holds, in the order of the work list, one
    member for each entry that was processed and nothing else; the member
    is named after the entry, with the lower-cased output format as its
    extension, and holds the bytes the pipeline returned for that entry. *)
Theorem output_archive_members (cfg : Config) (files : list (string * bytes)) :
  output_archive cfg files = flat_map (member_of cfg) files /\
  (forall entry,
      member_of cfg entry = [] \/
      exists processed_buffer,
        process_single_image (snd entry) (cfg_width cfg) (cfg_height cfg)
          (cfg_logo cfg) (cfg_opacity cfg) (cfg_target_size_kb cfg)
          (cfg_format cfg)
        = Ok (processed_buffer, PyStr.lower (cfg_format cfg)) /\
        member_of cfg entry
        = [(output_member_name (fst entry) (PyStr.lower (cfg_format cfg)),
            processed_buffer)]).
Proof.
split.
- unfold output_archive. rewrite batch_loop_members. reflexivity.
- intros entry. unfold member_of.
  destruct (process_single_image _ _ _ _ _ _ _) as [[buf fmt] |] eqn:E;
    [| left; reflexivity].
  right. exists buf. rewrite (returned_format_is_lowered _ _ _ _ _ _ _ _ _ E).
  split; reflexivity.
Qed.

(** X19: entries are processed independently of one another: the output
    archive of a work list is the output archive of its first part followed
    by that of the rest, so an entry that fails, or is added or removed,
    leaves the members of the other entries as they are. *)
Theorem output_archive_is_compositional (cfg : Config)
    (first_part rest : list (string * bytes)) :
  output_archive cfg (first_part ++ rest)
  = (output_archive cfg first_part ++ output_archive cfg rest)%list.
Proof.
unfold output_archive. rewrite !batch_loop_members. simpl.
apply flat_map_app.
Qed.

(** X20: the batch announces every entry by name and then reports progress
    [k / n] after the [k]-th of [n] entries, in order, whether the entry
    was processed or skipped: the reports run from [1 / n] to [n / n]. *)
Theorem batch_progress_and_status (cfg : Config) (files : list (string * bytes)) :
  let events := fst (batch_loop cfg (Z.of_nat (List.length files)) 0 files []) in
  progress_reports events
  = map (fun k => Fraction (Z.of_nat k + 1) (Z.of_nat (List.length files)))
        (seq 0 (List.length files)) /\
  status_messages events
  = map (fun entry => ("Processing: " ++ fst entry)%string) files.
Proof.
intros events.
destruct (batch_loop_reports cfg (Z.of_nat (List.length files)) files 0 [])
  as [Hp Hs].
split; [exact Hp | exact Hs].
Qed.

(** X21: with a target size of at least 1x1 and one of the three selectable
    formats, the entries the batch skips are exactly those whose bytes do
    not decode, and the output archive has one member per entry that
    decodes. *)
Theorem batch_skips_exactly_undecodable (width height : Z) (f : output_format)
    (target_size_kb : Z) (logo_bytes : option bytes) (opacity : Z)
    (files : list (string * bytes)) :
  1 <= width -> 1 <= height ->
  let cfg := mkConfig width height (format_option f) target_size_kb logo_bytes
               opacity in
  skipped_names (fst (batch_loop cfg (Z.of_nat (List.length files)) 0 files []))
  = map fst (filter (fun entry => negb (is_ok (Image_open (snd entry)))) files) /\
  List.length (output_archive cfg files)
  = List.length (filter (fun entry => is_ok (Image_open (snd entry))) files).
Proof.
intros Hw Hh cfg.
assert (Hok : forall entry,
           entry_succeeds cfg entry = is_ok (Image_open (snd entry))).
{ intros entry. unfold entry_succeeds, cfg.
  cbn [cfg_width cfg_height cfg_logo cfg_opacity cfg_target_size_kb cfg_format].
  rewrite (proj1 (pipeline_outcome _ _ _ _ _ _ _)).
  rewrite (proj2 (Z.leb_le 1 width) Hw), (proj2 (Z.leb_le 1 height) Hh).
  rewrite !andb_true_r. reflexivity. }
destruct (batch_loop_spec cfg (Z.of_nat (List.length files)) files 0 [])
  as (Hs & _ & Hl).
split.
- rewrite Hs. f_equal. apply filter_ext. intros entry.
  unfold entry_fails. rewrite Hok. reflexivity.
- unfold output_archive. rewrite Hl. simpl. f_equal. apply filter_ext. exact Hok.
Qed.


(** X22: with a target size of at least 1x1 and one of the three selectable
    formats, the single-file handler shows either one error carrying the
    decoder's exception, when the upload does not decode, or the success
    message, the download and the preview, when it does: never both, and
    never an error for an upload that decodes. *)
Theorem single_mode_error_or_success (width height : Z) (f : output_format)
    (target_size_kb : Z) (logo_bytes : option bytes) (opacity : Z)
    (uploaded_file : UploadedFile) :
  1 <= width -> 1 <= height ->
  let cfg := mkConfig width height (format_option f) target_size_kb logo_bytes
               opacity in
  (forall e, Image_open (upload_bytes uploaded_file) = Raise e ->
     single_file_mode cfg (Some uploaded_file) = [ st_error "Error: " e ]) /\
  (is_ok (Image_open (upload_bytes uploaded_file)) = true ->
   exists processed_buffer,
     single_file_mode cfg (Some uploaded_file)
     = [ st_success "Processing Complete!";
         st_download_button "Download Processed Image" (RawBytes processed_buffer)
           ("processed_" ++ PyStr.rsplit_dot_head (upload_name uploaded_file)
              ++ "." ++ format_option f)
           (mime_of_option f);
         st_image processed_buffer ]).
Proof.
intros Hw Hh cfg. unfold single_file_mode, cfg.
cbn [cfg_width cfg_height cfg_logo cfg_opacity cfg_target_size_kb cfg_format].
destruct (pipeline_outcome (upload_bytes uploaded_file) width height logo_bytes
            opacity target_size_kb f) as (Hok & Hraise & _).
split.
- intros e Hopen. rewrite (Hraise e Hopen). reflexivity.
- intros Hdec. rewrite Hdec in Hok.
  rewrite (proj2 (Z.leb_le 1 width) Hw), (proj2 (Z.leb_le 1 height) Hh) in Hok.
  destruct (process_single_image _ _ _ _ _ _ _) as [[buf fmt] |] eqn:E;
    [| discriminate].
  pose proof (returned_format_is_lowered _ _ _ _ _ _ _ _ _ E) as Hfmt.
  rewrite lower_format_option in Hfmt. subst fmt.
  exists buf. destruct f; reflexivity.
Qed.

(** X23: the single-file download is named [processed_] followed by the
    upload's name with its last extension replaced by the returned format;
    dots inside the stem stay, and a name with no dot gets the extension
    appended. *)
Theorem single_mode_download_name (cfg : Config) (stem ext plain : string)
    (file_bytes processed_buffer : bytes) (final_fmt : string) :
  process_single_image file_bytes (cfg_width cfg) (cfg_height cfg) (cfg_logo cfg)
    (cfg_opacity cfg) (cfg_target_size_kb cfg) (cfg_format cfg)
  = Ok (processed_buffer, final_fmt) ->
  PyStr.contains "."%char ext = false ->
  PyStr.contains "."%char plain = false ->
  single_file_mode cfg (Some (mkUpload (stem ++ "." ++ ext) file_bytes))
  = [ st_success "Processing Complete!";
      st_download_button "Download Processed Image" (RawBytes processed_buffer)
        ("processed_" ++ stem ++ "." ++ PyStr.lower (cfg_format cfg))
        (mime_type_of (PyStr.lower (cfg_format cfg)));
      st_image processed_buffer ] /\
  single_file_mode cfg (Some (mkUpload plain file_bytes))
  = [ st_success "Processing Complete!";
      st_download_button "Download Processed Image" (RawBytes processed_buffer)
        ("processed_" ++ plain ++ "." ++ PyStr.lower (cfg_format cfg))
        (mime_type_of (PyStr.lower (cfg_format cfg)));
      st_image processed_buffer ].
Proof.
intros Hrun Hdot Hplain.
pose proof (returned_format_is_lowered _ _ _ _ _ _ _ _ _ Hrun) as ->.
unfold single_file_mode. cbn [upload_bytes upload_name]. rewrite Hrun.
rewrite PathFacts.rsplit_dot_head_app by exact Hdot.
rewrite PathFacts.rsplit_dot_head_no_dot by exact Hplain.
split; reflexivity.
Qed.

End HandlersMore.

Section BatchAbort.
Context {PIL : Pillow} {LIBM : CLibrary} {AR : Containers}.

Lemma batch_mode_extraction_error (cfg : Config) (archive : UploadedFile) (e : exn) :
  extract_files_from_archive archive = Raise e ->
  batch_mode cfg (Some archive)
  = [ st_progress (Percent 0); st_error "Error reading archive: " e ].
Proof. intros H. unfold batch_mode. rewrite H. reflexivity. Qed.

(** X24: a container that cannot be opened, zip or 7z, aborts the batch:
    the handler shows the error with the library's exception and nothing
    else; no entry is processed and no download is offered. *)
Theorem unopenable_container_aborts_batch (cfg : Config) (archive : UploadedFile)
    (e : exn) :
  (PyStr.ends_with_ci (upload_name archive) ".zip" ->
   zipfile_open (upload_bytes archive) = Raise e ->
   batch_mode cfg (Some archive)
   = [ st_progress (Percent 0); st_error "Error reading archive: " e ]) /\
  (~ PyStr.ends_with_ci (upload_name archive) ".zip" ->
   PyStr.ends_with_ci (upload_name archive) ".7z" ->
   sevenzip_readall (upload_bytes archive) = Raise e ->
   batch_mode cfg (Some archive)
   = [ st_progress (Percent 0); st_error "Error reading archive: " e ]).
Proof.
split.
- intros Hname Hopen. apply batch_mode_extraction_error.
  unfold extract_files_from_archive.
  apply PyStrFacts.endswith_lower_iff in Hname. rewrite Hname, Hopen. reflexivity.
- intros Hzip H7z Hopen. apply batch_mode_extraction_error.
  unfold extract_files_from_archive.
  rewrite (PyStrFacts.endswith_lower_false _ _ Hzip).
  apply PyStrFacts.endswith_lower_iff in H7z. rewrite H7z, Hopen. reflexivity.
Qed.

(** X25: one image-named zip member that cannot be read aborts the whole
    batch, readable members included: the failure isolation of the loop
    covers the processing of an entry, not the reading of it. *)
Theorem unreadable_member_aborts_batch (cfg : Config) (archive : UploadedFile)
    (z : ZipFile) (name : string) :
  PyStr.ends_with_ci (upload_name archive) ".zip" ->
  zipfile_open (upload_bytes archive) = Ok z ->
  In name (namelist z) -> is_image_name name = true ->
  is_ok (zip_read z name) = false ->
  exists e,
    extract_files_from_archive archive = Raise e /\
    batch_mode cfg (Some archive)
    = [ st_progress (Percent 0); st_error "Error reading archive: " e ].
Proof.
intros Hname Hopen Hin Himg Hread.
assert (Hfail : is_ok (extract_files_from_archive archive) = false).
{ unfold extract_files_from_archive.
  apply PyStrFacts.endswith_lower_iff in Hname. rewrite Hname, Hopen. cbn [bind].
  rewrite zip_yield_is_ok. apply not_true_is_false. intros Hall.
  rewrite forallb_forall in Hall. specialize (Hall name Hin).
  rewrite Himg, Hread in Hall. discriminate. }
destruct (extract_files_from_archive archive) as [files | e] eqn:E; [discriminate |].
exists e. split; [reflexivity |]. apply batch_mode_extraction_error, E.
Qed.

End BatchAbort.

(* ================================================================== *)
(** * The further properties on sample inputs *)

Module MoreChecks.
Import Sample MoreSamples.

Lemma output_name_keeps_directory_witness :
  output_member_name "album/2024/cat.v2.PNG" "webp" = "album/2024/cat.v2.webp"%string.
Proof.
exact (output_name_keeps_directory "album/2024" "cat.v2" "PNG" "webp"
         ltac:(discriminate) eq_refl eq_refl eq_refl eq_refl eq_refl).
Defined.

Lemma output_names_collide_witness :
  output_member_name "a/cat.png" "webp" = output_member_name "a/cat.jpg" "webp".
Proof.
exact (output_names_collide "a" "cat" "png" "jpg" "webp"
         eq_refl eq_refl eq_refl eq_refl eq_refl).
Defined.

Lemma directory_entries_are_not_images_witness : is_image_name "shots.png/" = false.
Proof. apply directory_entries_are_not_images. reflexivity. Defined.

Lemma zip_extraction_witness :
  is_ok (extract_files_from_archive (AR := strict_containers) damaged_zip) = false /\
  is_ok (extract_files_from_archive (AR := Sample.containers) holiday_zip) = true.
Proof.
split.
- rewrite (zip_extraction_succeeds_iff_images_read (AR := strict_containers)
             damaged_zip
             [ ("a.png"%string, Ok photo);
               ("b.jpg"%string, Raise BadZipFile);
               ("c.txt"%string, Ok garbage) ]).
  + reflexivity.
  + apply Checks.ends_with_ci_sample. reflexivity.
  + vm_compute. reflexivity.
- rewrite (zip_extraction_succeeds_iff_images_read (AR := Sample.containers)
             holiday_zip
             [ ("a/beach.PNG"%string, Ok photo);
               ("a/notes.txt"%string, Ok garbage);
               ("broken.jpg"%string, Ok garbage);
               ("b/cat.webp"%string, Ok cutout) ]).
  + reflexivity.
  + apply Checks.ends_with_ci_sample. reflexivity.
  + vm_compute. reflexivity.
Defined.

Lemma encoder_meets_ceiling_witness :
  exists output_buffer,
    resize_and_compress_to_buffer cutout_img 50 "png" = Ok output_buffer /\
    tell output_buffer <= 50 * 1024.
Proof.
apply (encoder_meets_ceiling_when_possible cutout_img Png 50 40).
- left. reflexivity.
- simpl. tauto.
- apply Z.leb_le. vm_compute. reflexivity.
Defined.

Lemma encoder_exhausts_ladder_witness :
  resize_and_compress_traced cutout_img 10 "jpg"
  = Ok (encode "JPEG" 10 (convert RGB cutout_img), quality_ladder).
Proof.
apply (encoder_exhausts_ladder_when_nothing_fits cutout_img Jpg 10).
- left. reflexivity.
- intros q Hq. unfold quality_ladder in Hq. simpl in Hq.
  repeat (destruct Hq as [<- | Hq]; [apply Z.ltb_lt; vm_compute; reflexivity |]).
  contradiction.
Defined.

Lemma encoder_quality_grows_witness :
  exists buffer_small tried_small buffer_large tried_large,
    resize_and_compress_traced cutout_img 10 "png" = Ok (buffer_small, tried_small) /\
    resize_and_compress_traced cutout_img 50 "png" = Ok (buffer_large, tried_large) /\
    last tried_small 0 <= last tried_large 0.
Proof.
destruct (encoder_quality_grows_with_ceiling cutout_img Png 10 50)
  as (bs & ts & bl & tl & Hs & Hl & _ & _ & Hq).
- left. reflexivity.
- lia.
- exists bs, ts, bl, tl. split; [exact Hs |]. split; [exact Hl | exact Hq].
Defined.

Lemma encoder_raises_witness :
  resize_and_compress_to_buffer grey_alpha_img 100 "jpg" = Raise OSError.
Proof.
apply (encoder_raises_on_unflattened_modes grey_alpha_img 100 "jpg").
- reflexivity.
- left. reflexivity.
Defined.

Lemma encoder_keeps_alpha_witness :
  exists quality,
    In quality quality_ladder /\
    resize_and_compress_to_buffer cutout_img 50 "webp"
    = Ok (encode "WEBP" quality cutout_img).
Proof.
apply (encoder_keeps_alpha_for_webp_and_png cutout_img Webp 50).
- left. reflexivity.
- left. reflexivity.
Defined.

Lemma degenerate_watermark_witness :
  apply_logo small_img (Some logo_wide) 50 = small_img.
Proof.
apply (degenerate_watermark_is_dropped small_img logo_wide 50
         (mkImage (100, 1) RGBA (Decoded logo_wide))).
- reflexivity.
- vm_compute. right. reflexivity.
Defined.

Lemma opacity_fraction_witness :
  exists v w,
    opacity_value 25 = Ok v /\ opacity_value 75 = Ok w /\ (v <=? w)%float = true.
Proof.
destruct (opacity_fraction_on_slider 25 75) as (v & w & Hv & Hw & _ & _ & _ & _ & Hm).
- lia.
- lia.
- exists v, w. split; [exact Hv |]. split; [exact Hw |]. apply Hm. lia.
Defined.

Lemma batch_skips_witness :
  skipped_names
    (fst (batch_loop (mkConfig 10 10 "webp" 10 None 50) 3 0 album []))
  = [ "broken.jpg"%string ].
Proof.
exact (proj1 (batch_skips_exactly_undecodable 10 10 Webp 10 None 50 album
                ltac:(lia) ltac:(lia))).
Defined.

Lemma single_mode_error_witness :
  single_file_mode (mkConfig 10 10 "webp" 10 None 50)
    (Some (mkUpload "notes.png" garbage))
  = [ st_error "Error: " UnidentifiedImageError ].
Proof.
exact (proj1 (single_mode_error_or_success 10 10 Webp 10 None 50
                (mkUpload "notes.png" garbage) ltac:(lia) ltac:(lia))
         UnidentifiedImageError eq_refl).
Defined.

Lemma single_mode_download_name_witness :
  single_file_mode (mkConfig 1 1 "JPG" 10 None 50)
    (Some (mkUpload "cat.v2.PNG" photo))
  = [ st_success "Processing Complete!";
      st_download_button "Download Processed Image" (RawBytes (repeat Byte.x00 380))
        "processed_cat.v2.jpg" "image/jpeg";
      st_image (repeat Byte.x00 380) ].
Proof.
assert (Hrun : process_single_image photo 1 1 None 50 10 "JPG"
               = Ok (repeat Byte.x00 380, "jpg"%string))
  by (vm_compute; reflexivity).
exact (proj1 (single_mode_download_name (mkConfig 1 1 "JPG" 10 None 50)
                "cat.v2" "PNG" "cat" photo (repeat Byte.x00 380) "jpg"
                Hrun eq_refl eq_refl)).
Defined.

Lemma unreadable_member_witness :
  exists e,
    extract_files_from_archive (AR := strict_containers) damaged_zip = Raise e /\
    batch_mode (AR := strict_containers) (config "webp" None) (Some damaged_zip)
    = [ st_progress (Percent 0); st_error "Error reading archive: " e ].
Proof.
apply (unreadable_member_aborts_batch (AR := strict_containers)
         (config "webp" None) damaged_zip
         [ ("a.png"%string, Ok photo);
           ("b.jpg"%string, Raise BadZipFile);
           ("c.txt"%string, Ok garbage) ] "b.jpg").
- apply Checks.ends_with_ci_sample. reflexivity.
- vm_compute. reflexivity.
- simpl. tauto.
- reflexivity.
- reflexivity.
Defined.

End MoreChecks.
